(** * Paper-trading ledger of [server/trading]: a shallow embedding

    The development follows [models.py], [utils.py], [paper_trading.py] and
    the [submit_order] tool of [trading.py].

    Modelling conventions.
    - A Python [float] is an exact rational of [Q]: rounding, NaN and the
      infinities are outside the model.  Comparisons are the boolean ones of
      the code ([<] is [Qltb], [==] is [Qeq_bool], [>] is [Qltb] flipped), and
      a float division raises [ZeroDivisionError] on a zero divisor.
    - A Python [dict] is an insertion-ordered association list ([Dict]).
    - [datetime.now()] and [uuid4()] are inputs of the call ([Env]).
    - In-place mutation is explicit state passing: a call returns the account
      as it stands when the call ends (normally or by an exception), the list
      of accounts it handed to [save_account], and what it returned or raised.
    - An [Order] handed to [submit_order] is the caller's own object, as
      [create_order] builds one for every submission: it is not yet among
      the orders the account stores.  The stamps the call writes on it show
      in the order of the result.
    - An f-string message is a constructor of [Message] carrying the values
      the string interpolates.
    - Logging is not modelled.
    - Where a statement allows it, it is written with the expressions of the
      code and plain equality, so that it does not rest on the algebra of
      [Q].  [Binary64] gives the two cash expressions of [submit_order] on
      doubles, to tell a closed form apart from what the code computes. *)

From Stdlib Require Import QArith ZArith String Ascii List Bool Lia Lqa Permutation
  Sorted Floats.
Import ListNotations.

Open Scope string_scope.
Open Scope Q_scope.

(** ** Numbers *)

Definition Qltb (x y : Q) : bool := negb (Qle_bool y x).

(** Python's [x or 0] on an [Optional[float]]: [None] and [0.0] are both
    falsy and give the integer [0]. *)
Definition or0 (x : option Q) : Q :=
  match x with
  | Some v => if Qeq_bool v 0 then 0 else v
  | None => 0
  end.

(** ** Insertion-ordered dictionaries *)

Module Dict.
Section Ops.
Context {V : Type}.

Definition t := list (string * V).

Definition empty : t := [].

Fixpoint get (k : string) (d : t) : option V :=
match d with
| [] => None
| (k', v) :: d' => if String.eqb k k' then Some v else get k d'
end.

Definition mem (k : string) (d : t) : bool :=
match get k d with Some _ => true | None => false end.

(** [d[k] = v]: an existing key keeps its place, a new key goes last. *)
Fixpoint set (k : string) (v : V) (d : t) : t :=
match d with
| [] => [(k, v)]
| (k', v') :: d' =>
    if String.eqb k k' then (k', v) :: d' else (k', v') :: set k v d'
end.

(** [del d[k]]; the code deletes only keys it has just looked up.  Every
  binding of [k] goes, which on a dictionary (keys are unique) is the one
  binding there is. *)
Fixpoint del (k : string) (d : t) : t :=
match d with
| [] => []
| (k', v') :: d' =>
    if String.eqb k k' then del k d' else (k', v') :: del k d'
end.

Definition keys (d : t) : list string := map fst d.
Definition values (d : t) : list V := map snd d.
Definition is_empty (d : t) : bool :=
match d with [] => true | _ => false end.
End Ops.
Arguments t : clear implicits.
End Dict.

(** ** models.py *)

Inductive OrderType := MARKET | LIMIT | STOP | STOP_LIMIT | TRAILING_STOP.
Inductive OrderAction := BUY | SELL | BUY_TO_COVER | SELL_SHORT.
Inductive OrderStatus := OPEN | EXECUTED | CANCELED | REJECTED | EXPIRED.

(** The members of the two enumerations the tools look up by name; a
    member's value is its name. *)
Definition OrderType_of_name (s : string) : option OrderType :=
  if String.eqb s "MARKET" then Some MARKET
  else if String.eqb s "LIMIT" then Some LIMIT
  else if String.eqb s "STOP" then Some STOP
  else if String.eqb s "STOP_LIMIT" then Some STOP_LIMIT
  else if String.eqb s "TRAILING_STOP" then Some TRAILING_STOP
  else None.

Definition OrderType_value (t : OrderType) : string :=
  match t with
  | MARKET => "MARKET"
  | LIMIT => "LIMIT"
  | STOP => "STOP"
  | STOP_LIMIT => "STOP_LIMIT"
  | TRAILING_STOP => "TRAILING_STOP"
  end.

Definition OrderAction_of_name (s : string) : option OrderAction :=
  if String.eqb s "BUY" then Some BUY
  else if String.eqb s "SELL" then Some SELL
  else if String.eqb s "BUY_TO_COVER" then Some BUY_TO_COVER
  else if String.eqb s "SELL_SHORT" then Some SELL_SHORT
  else None.

Definition OrderStatus_eqb (a b : OrderStatus) : bool :=
  match a, b with
  | OPEN, OPEN | EXECUTED, EXECUTED | CANCELED, CANCELED
  | REJECTED, REJECTED | EXPIRED, EXPIRED => true
  | _, _ => false
  end.

(** A [datetime.datetime], as a point on the clock. *)
Definition datetime := Z.

Module Position.
Record t := mk {
  symbol : string;
  quantity : Q;
  cost_basis : Q;
  current_price : option Q;
  market_value : option Q;
  unrealized_pl : option Q;
  unrealized_pl_percent : option Q
}.

(** [Position(symbol=s, quantity=q, cost_basis=c)]: the optional fields
    default to [None]. *)
Definition new (s : string) (q c : Q) : t :=
  mk s q c None None None None.

Definition set_quantity (q : Q) (p : t) : t :=
  mk (symbol p) q (cost_basis p) (current_price p) (market_value p)
     (unrealized_pl p) (unrealized_pl_percent p).

Definition set_cost_basis (c : Q) (p : t) : t :=
  mk (symbol p) (quantity p) c (current_price p) (market_value p)
     (unrealized_pl p) (unrealized_pl_percent p).
Definition set_current_price (x : option Q) (p : t) : t :=
  mk (symbol p) (quantity p) (cost_basis p) x (market_value p)
     (unrealized_pl p) (unrealized_pl_percent p).

Definition set_market_value (x : option Q) (p : t) : t :=
  mk (symbol p) (quantity p) (cost_basis p) (current_price p) x
     (unrealized_pl p) (unrealized_pl_percent p).

Definition set_unrealized_pl (x : option Q) (p : t) : t :=
  mk (symbol p) (quantity p) (cost_basis p) (current_price p)
     (market_value p) x (unrealized_pl_percent p).

Definition set_unrealized_pl_percent (x : option Q) (p : t) : t :=
  mk (symbol p) (quantity p) (cost_basis p) (current_price p)
     (market_value p) (unrealized_pl p) x.
End Position.

Module Order.
Record t := mk {
  order_id : string;
  symbol : string;
  action : OrderAction;
  quantity : Q;
  order_type : OrderType;
  limit_price : option Q;
  stop_price : option Q;
  status : OrderStatus;
  submitted_at : datetime;
  executed_at : option datetime;
  execution_price : option Q
}.

Definition set_status (s : OrderStatus) (o : t) : t :=
  mk (order_id o) (symbol o) (action o) (quantity o) (order_type o)
     (limit_price o) (stop_price o) s (submitted_at o) (executed_at o)
     (execution_price o).

Definition set_executed_at (d : option datetime) (o : t) : t :=
  mk (order_id o) (symbol o) (action o) (quantity o) (order_type o)
     (limit_price o) (stop_price o) (status o) (submitted_at o) d
     (execution_price o).

Definition set_execution_price (p : option Q) (o : t) : t :=
  mk (order_id o) (symbol o) (action o) (quantity o) (order_type o)
     (limit_price o) (stop_price o) (status o) (submitted_at o)
     (executed_at o) p.
End Order.

Module Trade.
Record t := mk {
  trade_id : string;
  order_id : string;
  symbol : string;
  action : OrderAction;
  quantity : Q;
  price : Q;
  timestamp : datetime;
  commission : Q
}.
End Trade.

Module PaperAccount.
Record t := mk {
  cash : Q;
  positions : Dict.t Position.t;
  orders : Dict.t Order.t;
  trades : list Trade.t;
  daily_pl : Dict.t Q
}.

(** [PaperAccount(cash=c)]: every collection starts empty. *)
Definition new (c : Q) : t := mk c Dict.empty Dict.empty [] Dict.empty.

Definition set_cash (c : Q) (a : t) : t :=
  mk c (positions a) (orders a) (trades a) (daily_pl a).
Definition set_positions (p : Dict.t Position.t) (a : t) : t :=
  mk (cash a) p (orders a) (trades a) (daily_pl a).
Definition set_orders (o : Dict.t Order.t) (a : t) : t :=
  mk (cash a) (positions a) o (trades a) (daily_pl a).
Definition set_trades (l : list Trade.t) (a : t) : t :=
  mk (cash a) (positions a) (orders a) l (daily_pl a).
Definition set_daily_pl (d : Dict.t Q) (a : t) : t :=
  mk (cash a) (positions a) (orders a) (trades a) d.
End PaperAccount.

(** ** Exceptions, outcomes and effects *)

Inductive exn :=
| ZeroDivisionError
| ValidationError
| AttributeError.

Inductive outcome (R : Type) :=
| Returned (r : R)
| Raised (e : exn).
Arguments Returned {R} r.
Arguments Raised {R} e.

(** What a call on an account leaves behind. *)
Record effect (R : Type) := Effect {
  account_after : PaperAccount.t;
  saved : list PaperAccount.t;
  result : outcome R
}.
Arguments Effect {R}.
Arguments account_after {R}.
Arguments saved {R}.
Arguments result {R}.

(** Python's float division. *)
Definition truediv (x y : Q) : outcome Q :=
  if Qeq_bool y 0 then Raised ZeroDivisionError else Returned (x / y).

(** The texts the service returns, by the values they interpolate. *)
Inductive Message :=
| InsufficientFunds (required available : Q)
| InsufficientShares (required available : Q)
| Bought (quantity : Q) (symbol : string) (price : Q)
| Sold (quantity : Q) (symbol : string) (price : Q)
| SoldShort (quantity : Q) (symbol : string) (price : Q)
| OrderSubmitted (order_id : string)
| OrderNotFound (order_id : string)
| CannotCancel (status : OrderStatus)
| OrderCanceled (order_id : string) (quantity : Q) (symbol : string).

(** ** utils.py *)

(** A parsed JSON document, as [json.load] returns it. *)
#[warnings="-register-all"]
Inductive json :=
| JNull
| JBool (b : bool)
| JNum (q : Q)
| JStr (s : string)
| JArr (l : list json)
| JObj (l : list (string * json)).

(** Truth value of a Python object ([if data:]). *)
Definition truthy (j : json) : bool :=
  match j with
  | JNull => false
  | JBool b => b
  | JNum q => negb (Qeq_bool q 0)
  | JStr s => negb (String.eqb s EmptyString)
  | JArr l => match l with [] => false | _ => true end
  | JObj l => match l with [] => false | _ => true end
  end.

(** What [load_json_file] finds at the path. *)
Inductive file :=
| Missing                (* [path.exists()] is false *)
| Unreadable             (* [open] or the read raises *)
| Malformed              (* [json.load] raises: the text is not JSON *)
| Content (j : json).    (* the text parses to [j] *)

Module Utils.

(** [load_json_file(path, default)]: every exception is caught and gives
    [default]. *)
Definition load_json_file (path : file) (default : json) : json :=
  match path with
  | Missing => default
  | Unreadable => default
  | Malformed => default
  | Content j => j
  end.

End Utils.

(** [str.upper()] on ASCII text; other bytes are kept. *)
Definition upper_ascii (c : ascii) : ascii :=
  let n := nat_of_ascii c in
  if andb (Nat.leb 97 n) (Nat.leb n 122) then ascii_of_nat (n - 32) else c.

Fixpoint upper (s : string) : string :=
  match s with
  | EmptyString => EmptyString
  | String c s' => String (upper_ascii c) (upper s')
  end.

(** ** paper_trading.py *)

(** The clock readings and the fresh identifier one [submit_order] call
    draws, in the order it draws them. *)
Record Env := mkEnv {
  executed_now : datetime;   (* [order.executed_at = datetime.now()] *)
  new_trade_id : string;     (* [generate_id("trade")] *)
  trade_now : datetime;      (* [timestamp=datetime.now()] *)
  today : string             (* [datetime.now().strftime("%Y-%m-%d")] *)
}.

(** The dictionary [submit_order] returns; a non-market submission has no
    ["trade"] key. *)
Module SubmitResult.
Record t := mk {
  success : bool;
  message : Message;
  order : Order.t;
  trade : option Trade.t
}.
End SubmitResult.

(** The dictionary [cancel_order] returns. *)
Module CancelResult.
Record t := mk {
  success : bool;
  message : Message
}.
End CancelResult.

(** One entry of [portfolio_dict]. *)
Module Metrics.
Record t := mk {
  value : Q;
  weight : Q;
  unrealized_pl : Q;
  unrealized_pl_percent : Q
}.
End Metrics.

(** The ["daily_pl"] entry of the analysis. *)
Module DailyStats.
Record t := mk { avg : Q; best : Q; worst : Q }.
End DailyStats.

(** The dictionary [analyze_portfolio] returns for a non-empty portfolio;
    the two optional keys are [None] when absent. *)
Module Analysis.
Record t := mk {
  total_value : Q;
  cash : Q;
  cash_percent : Q;
  invested : Q;
  invested_percent : Q;
  total_unrealized_pl : Q;
  total_unrealized_pl_percent : Q;
  positions : list (string * Metrics.t);
  num_positions : nat;
  most_concentrated : option (string * Q);
  daily_pl : option DailyStats.t
}.
End Analysis.

Inductive AnalysisResult :=
| NoPositions                (* the "No positions in portfolio" message *)
| Analyzed (a : Analysis.t).

Module PaperTradingService.

(** [save_account(account)] writes the account's snapshot; its boolean
    result is dropped by every caller.  The model records the account that
    was handed over. *)
Definition save_account (account : PaperAccount.t) : list PaperAccount.t :=
  [account].

(** [setup_account(cash)]: the account and what was saved. *)
Definition setup_account (cash : Q) : PaperAccount.t * list PaperAccount.t :=
  let account := PaperAccount.new cash in
  (account, save_account account).

Section Load.
(** pydantic's validation of the fields of a JSON object against
    [PaperAccount] is the library's; it is a parameter here. *)
Variable validate_fields : list (string * json) -> outcome PaperAccount.t.

(** [PaperAccount.model_validate(data)]: anything but a dictionary is
    refused. *)
Definition model_validate (data : json) : outcome PaperAccount.t :=
  match data with
  | JObj fields => validate_fields fields
  | _ => Raised ValidationError
  end.

(** [load_account()]: what it returns or raises, and what it saved. *)
Definition load_account (PAPER_ACCOUNT_FILE : file)
  : outcome PaperAccount.t * list PaperAccount.t :=
  let data := Utils.load_json_file PAPER_ACCOUNT_FILE JNull in
  if truthy data then (model_validate data, [])
  else
    let '(account, saved) := setup_account 100000.0 in
    (Returned account, saved).
End Load.

(** [create_order]: [order_id] is the identifier [generate_id("order")]
    draws and [now] the default of [submitted_at].  [order_type] comes as
    text and the [Order] constructor turns it into the enumeration member
    of that value, or refuses it.  The risk check on [current_price] only
    logs a warning. *)
Definition create_order (order_id : string) (now : datetime)
    (symbol : string) (action : OrderAction) (quantity : Q)
    (order_type : string) (limit_price stop_price current_price : option Q)
    : outcome Order.t :=
  match OrderType_of_name order_type with
  | Some ty =>
    Returned (Order.mk order_id (upper symbol) action quantity ty
                       limit_price stop_price OPEN now None None)
  | None => Raised ValidationError
  end.

(** Lines 195-200: record the order and the trade, save, return. *)
Definition record_and_save (order : Order.t) (trade : Trade.t)
    (account : PaperAccount.t) (r : SubmitResult.t) : effect SubmitResult.t :=
  let account :=
    PaperAccount.set_orders
      (Dict.set (Order.order_id order) order (PaperAccount.orders account))
      account in
  let account :=
    PaperAccount.set_trades (PaperAccount.trades account ++ [trade])%list
                            account in
  Effect account (save_account account) (Returned r).

Definition submit_order (env : Env) (order : Order.t)
    (account : PaperAccount.t) (execution_price : Q)
    : effect SubmitResult.t :=
  match Order.order_type order with
  | MARKET =>
    let order := Order.set_status EXECUTED order in
    let order := Order.set_executed_at (Some (executed_now env)) order in
    let order := Order.set_execution_price (Some execution_price) order in
    let trade :=
      Trade.mk (new_trade_id env) (Order.order_id order)
               (Order.symbol order) (Order.action order)
               (Order.quantity order) execution_price (trade_now env)
               4.95 in
    let trade_value := Order.quantity order * execution_price in
    let commission := Trade.commission trade in
    let result := fun (s : bool) (m : Message) =>
      SubmitResult.mk s m order (Some trade) in
    let symbol := Order.symbol order in
    match Order.action order with
    | BUY | BUY_TO_COVER =>
      if Qltb (PaperAccount.cash account) (trade_value + commission) then
        Effect account []
          (Returned (result false
             (InsufficientFunds (trade_value + commission)
                                (PaperAccount.cash account))))
      else
        let account :=
          PaperAccount.set_cash
            (PaperAccount.cash account - (trade_value + commission))
            account in
        match Dict.get symbol (PaperAccount.positions account) with
        | Some position =>
          let total_shares :=
            Position.quantity position + Order.quantity order in
          let total_cost :=
            Position.quantity position * Position.cost_basis position
            + trade_value in
          let position := Position.set_quantity total_shares position in
          let account :=
            PaperAccount.set_positions
              (Dict.set symbol position (PaperAccount.positions account))
              account in
          match truediv total_cost total_shares with
          | Raised e => Effect account [] (Raised e)
          | Returned basis =>
            let position := Position.set_cost_basis basis position in
            let account :=
              PaperAccount.set_positions
                (Dict.set symbol position (PaperAccount.positions account))
                account in
            record_and_save order trade account
              (result true
                 (Bought (Order.quantity order) symbol execution_price))
          end
        | None =>
          let account :=
            PaperAccount.set_positions
              (Dict.set symbol
                 (Position.new symbol (Order.quantity order) execution_price)
                 (PaperAccount.positions account))
              account in
          record_and_save order trade account
            (result true
               (Bought (Order.quantity order) symbol execution_price))
        end
    | SELL =>
      match Dict.get symbol (PaperAccount.positions account) with
      | None =>
        Effect account []
          (Returned (result false
             (InsufficientShares (Order.quantity order) 0)))
      | Some position =>
        if Qltb (Position.quantity position) (Order.quantity order) then
          Effect account []
            (Returned (result false
               (InsufficientShares (Order.quantity order)
                                   (Position.quantity position))))
        else
          let account :=
            PaperAccount.set_cash
              (PaperAccount.cash account + (trade_value - commission))
              account in
          let position :=
            Position.set_quantity
              (Position.quantity position - Order.quantity order)
              position in
          let account :=
            PaperAccount.set_positions
              (Dict.set symbol position (PaperAccount.positions account))
              account in
          let account :=
            if Qeq_bool (Position.quantity position) 0 then
              let realized_pl :=
                trade_value
                - Order.quantity order * Position.cost_basis position in
              let daily_pl :=
                if Dict.mem (today env) (PaperAccount.daily_pl account)
                then PaperAccount.daily_pl account
                else Dict.set (today env) 0 (PaperAccount.daily_pl account) in
              let daily_pl :=
                match Dict.get (today env) daily_pl with
                | Some pl => Dict.set (today env) (pl + realized_pl) daily_pl
                | None => daily_pl
                end in
              let account := PaperAccount.set_daily_pl daily_pl account in
              PaperAccount.set_positions
                (Dict.del symbol (PaperAccount.positions account)) account
            else account in
          record_and_save order trade account
            (result true
               (Sold (Order.quantity order) symbol execution_price))
      end
    | SELL_SHORT =>
      let account :=
        PaperAccount.set_cash
          (PaperAccount.cash account + (trade_value - commission))
          account in
      let account :=
        PaperAccount.set_positions
          (Dict.set symbol
             (Position.new symbol (- Order.quantity order) execution_price)
             (PaperAccount.positions account))
          account in
      record_and_save order trade account
        (result true
           (SoldShort (Order.quantity order) symbol execution_price))
    end
  | _ =>
    let account :=
      PaperAccount.set_orders
        (Dict.set (Order.order_id order) order (PaperAccount.orders account))
        account in
    Effect account (save_account account)
      (Returned (SubmitResult.mk true
                   (OrderSubmitted (Order.order_id order)) order None))
  end.

Definition cancel_order (order_id : string) (account : PaperAccount.t)
    : effect CancelResult.t :=
  match Dict.get order_id (PaperAccount.orders account) with
  | None =>
    Effect account []
      (Returned (CancelResult.mk false (OrderNotFound order_id)))
  | Some order =>
    if negb (OrderStatus_eqb (Order.status order) OPEN) then
      Effect account []
        (Returned (CancelResult.mk false
                     (CannotCancel (Order.status order))))
    else
      let order := Order.set_status CANCELED order in
      let account :=
        PaperAccount.set_orders
          (Dict.set order_id order (PaperAccount.orders account))
          account in
      Effect account (save_account account)
        (Returned (CancelResult.mk true
                     (OrderCanceled order_id (Order.quantity order)
                                    (Order.symbol order))))
  end.

(** [sum(xs)]: from the integer [0], left to right. *)
Definition sum (xs : list Q) : Q := fold_left Qplus xs 0.

(** [max(xs)] and [min(xs)] on a non-empty list: the first extremal
    element. *)
Definition max_of (x : Q) (xs : list Q) : Q :=
  fold_left (fun m y => if Qltb m y then y else m) xs x.
Definition min_of (x : Q) (xs : list Q) : Q :=
  fold_left (fun m y => if Qltb y m then y else m) xs x.

(** [sorted(items, key=value, reverse=True)]: descending and stable. *)
Fixpoint insert_desc (x : string * Metrics.t) (l : list (string * Metrics.t))
    : list (string * Metrics.t) :=
  match l with
  | [] => [x]
  | y :: l' =>
    if Qltb (Metrics.value (snd x)) (Metrics.value (snd y)) then y :: insert_desc x l'
    else x :: l
  end.

Definition sorted_desc (l : list (string * Metrics.t))
    : list (string * Metrics.t) :=
  fold_right insert_desc [] l.

(** The first loop of [analyze_portfolio], one position at a time, on
    [(total_value, total_invested, portfolio_dict)]. *)
Definition accumulate (acc : Q * Q * Dict.t Metrics.t)
    (item : string * Position.t) : Q * Q * Dict.t Metrics.t :=
  let '(total_value, total_invested, portfolio_dict) := acc in
  let '(symbol, pos) := item in
  let market_value := or0 (Position.market_value pos) in
  let cost_basis_total := Position.quantity pos * Position.cost_basis pos in
  (total_value + market_value,
   total_invested + cost_basis_total,
   Dict.set symbol
     (Metrics.mk market_value 0 (or0 (Position.unrealized_pl pos))
                (or0 (Position.unrealized_pl_percent pos)))
     portfolio_dict).

Definition set_weight (total_value : Q) (m : Metrics.t) : Metrics.t :=
  Metrics.mk (Metrics.value m)
    (if Qltb 0 total_value then (Metrics.value m / total_value) * 100 else 0)
    (Metrics.unrealized_pl m) (Metrics.unrealized_pl_percent m).

(** Every division below sits under the guard that its divisor is
    positive, or divides by the length of a non-empty list. *)
Definition analyze_portfolio (account : PaperAccount.t) : AnalysisResult :=
  if Dict.is_empty (PaperAccount.positions account) then NoPositions
  else
    let '(total_value, total_invested, portfolio_dict) :=
      fold_left accumulate (PaperAccount.positions account)
                (PaperAccount.cash account, 0, Dict.empty) in
    let portfolio_dict :=
      map (fun kv => (fst kv, set_weight total_value (snd kv)))
          portfolio_dict in
    let sorted_positions := sorted_desc portfolio_dict in
    let total_unrealized_pl :=
      sum (map (fun pos => Metrics.unrealized_pl (snd pos)) sorted_positions) in
    let total_unrealized_pl_percent :=
      if Qltb 0 total_invested
      then (total_unrealized_pl / total_invested) * 100 else 0 in
    Analyzed
      (Analysis.mk
         total_value
         (PaperAccount.cash account)
         (if Qltb 0 total_value
          then PaperAccount.cash account / total_value * 100 else 0)
         (total_value - PaperAccount.cash account)
         (if Qltb 0 total_value
          then (total_value - PaperAccount.cash account) / total_value * 100
          else 0)
         total_unrealized_pl
         total_unrealized_pl_percent
         sorted_positions
         (length sorted_positions)
         (match sorted_positions with
          | most :: _ => Some (fst most, Metrics.weight (snd most))
          | [] => None
          end)
         (match Dict.values (PaperAccount.daily_pl account) with
          | [] => None
          | v :: vs =>
            Some (DailyStats.mk
                    (sum (v :: vs) / inject_Z (Z.of_nat (length (v :: vs))))
                    (max_of v vs) (min_of v vs))
          end)).

(** [update_positions]: the loop body on one position, for the price found
    for its symbol.  The three assignments before the division stay when the
    division raises. *)
Definition refresh (price : Q) (position : Position.t)
    : Position.t * outcome unit :=
  let position := Position.set_current_price (Some price) position in
  let market_value := Position.quantity position * price in
  let position := Position.set_market_value (Some market_value) position in
  let unrealized_pl :=
    market_value
    - Position.quantity position * Position.cost_basis position in
  let position := Position.set_unrealized_pl (Some unrealized_pl) position in
  match truediv unrealized_pl
          (Position.quantity position * Position.cost_basis position) with
  | Raised e => (position, Raised e)
  | Returned ratio =>
    (Position.set_unrealized_pl_percent (Some (ratio * 100)) position,
     Returned tt)
  end.

(** The loop of [update_positions] over the items of [account.positions]:
    the positions as the loop leaves them, and the exception that stopped it
    if one did. *)
Fixpoint refresh_all (current_prices : Dict.t Q)
    (items : Dict.t Position.t) : Dict.t Position.t * outcome unit :=
  match items with
  | [] => ([], Returned tt)
  | (symbol, position) :: rest =>
    match Dict.get symbol current_prices with
    | Some price =>
      match refresh price position with
      | (position, Raised e) => ((symbol, position) :: rest, Raised e)
      | (position, Returned _) =>
        let '(rest, r) := refresh_all current_prices rest in
        ((symbol, position) :: rest, r)
      end
    | None =>
      let '(rest, r) := refresh_all current_prices rest in
      ((symbol, position) :: rest, r)
    end
  end.

Definition update_positions (account : PaperAccount.t)
    (current_prices : Dict.t Q) : effect PaperAccount.t :=
  let '(positions, r) :=
    refresh_all current_prices (PaperAccount.positions account) in
  let account := PaperAccount.set_positions positions account in
  match r with
  | Returned _ => Effect account [] (Returned account)
  | Raised e => Effect account [] (Raised e)
  end.

(** [timedelta(days=n)] on a clock that counts microseconds. *)
Definition timedelta_days (days : Z) : Z := (days * 86400000000)%Z.

(** [sorted(trades, key=timestamp, reverse=True)]: newest first, stable. *)
Fixpoint insert_newest (x : Trade.t) (l : list Trade.t) : list Trade.t :=
  match l with
  | [] => [x]
  | y :: l' =>
    if Z.ltb (Trade.timestamp x) (Trade.timestamp y)
    then y :: insert_newest x l'
    else x :: l
  end.

Definition sorted_newest (l : list Trade.t) : list Trade.t :=
  fold_right insert_newest [] l.

(** [get_trading_history(account, days)], [now] being [datetime.now()]. *)
Definition get_trading_history (now : datetime) (account : PaperAccount.t)
    (days : Z) : list Trade.t :=
  let cutoff_date := (now - timedelta_days days)%Z in
  let recent_trades :=
    filter (fun t => Z.leb cutoff_date (Trade.timestamp t))
           (PaperAccount.trades account) in
  sorted_newest recent_trades.

End PaperTradingService.

(** ** trading.py: the [submit_order] tool *)

(** What the tool touches, in order. *)
Inductive event :=
| LoadAccount
| SaveAccount (account : PaperAccount.t)
| GetQuote (symbol : string)
| CreateOrder (order : Order.t).

(** The text the tool answers with. *)
Inductive response :=
| LimitPriceRequired          (* "Error: Limit price is required for LIMIT orders." *)
| QuantityNotPositive         (* "Error: Quantity must be greater than zero." *)
| NoCurrentPrice (symbol : string)
| ErrorSubmitting (e : exn)   (* the outer [except Exception] *)
| Answer (m : Message).       (* [result["message"]] *)

Module Trading.
Section Tool.
(** The field validation of pydantic and the quote source: [get_quote s]
    is the ["price"] of the quote, [None] when the lookup raises. *)
Variable validate_fields : list (string * json) -> outcome PaperAccount.t.
Variable get_quote : string -> option Q.

(** The identifier and the clock reading [create_order] draws. *)
Variable new_order_id : string.
Variable order_now : datetime.

Definition saves (l : list PaperAccount.t) : list event :=
  map SaveAccount l.

Definition submit_order (PAPER_ACCOUNT_FILE : file) (env : Env)
    (symbol action : string) (quantity : Q) (order_type : string)
    (limit_price : option Q) : response * list event :=
  let symbol := upper symbol in
  match OrderAction_of_name (upper action) with
  | None => (ErrorSubmitting AttributeError, [])
  | Some action =>
  match OrderType_of_name (upper order_type) with
  | None => (ErrorSubmitting AttributeError, [])
  | Some order_type =>
    match order_type, limit_price with
    | LIMIT, None => (LimitPriceRequired, [])
    | _, _ =>
    if Qle_bool quantity 0 then (QuantityNotPositive, [])
    else
      match PaperTradingService.load_account validate_fields
              PAPER_ACCOUNT_FILE with
      | (Raised e, written) =>
        (ErrorSubmitting e, LoadAccount :: saves written)
      | (Returned account, written) =>
        let trace := (LoadAccount :: saves written)%list in
        match get_quote symbol with
        | None => (NoCurrentPrice symbol, trace ++ [GetQuote symbol])%list
        | Some current_price =>
          let trace := (trace ++ [GetQuote symbol])%list in
          match PaperTradingService.create_order new_order_id order_now
                  symbol action quantity (OrderType_value order_type)
                  limit_price None (Some current_price) with
          | Raised e => (ErrorSubmitting e, trace)
          | Returned order =>
            let trace := (trace ++ [CreateOrder order])%list in
            let run :=
              PaperTradingService.submit_order env order account
                                               current_price in
            let trace := (trace ++ saves (saved run))%list in
            match result run with
            | Raised e => (ErrorSubmitting e, trace)
            | Returned r => (Answer (SubmitResult.message r), trace)
            end
          end
        end
      end
    end
  end
  end.
End Tool.
End Trading.

(** ** Vocabulary of the statements *)

(** The two rejections of [submit_order], as the conditions the code tests. *)
Definition insufficient_funds (order : Order.t) (account : PaperAccount.t)
    (execution_price : Q) : Prop :=
  (Order.action order = BUY \/ Order.action order = BUY_TO_COVER) /\
  PaperAccount.cash account < Order.quantity order * execution_price + 4.95.

Definition insufficient_shares (order : Order.t) (account : PaperAccount.t)
    : Prop :=
  Order.action order = SELL /\
  match Dict.get (Order.symbol order) (PaperAccount.positions account) with
  | None => True
  | Some position => Position.quantity position < Order.quantity order
  end.

(** A submission: the order, the price it executes at, and what the call
    draws from the clock. *)
Record Submission := mkSubmission {
  sub_env : Env;
  sub_order : Order.t;
  sub_price : Q
}.

(** Submissions made one after the other against the same account; [None]
    as soon as one is refused or raises. *)
Fixpoint submit_all (subs : list Submission) (account : PaperAccount.t)
    : option PaperAccount.t :=
  match subs with
  | [] => Some account
  | s :: rest =>
    let run :=
      PaperTradingService.submit_order (sub_env s) (sub_order s) account
                                       (sub_price s) in
    match result run with
    | Returned r =>
      if SubmitResult.success r then submit_all rest (account_after run) else None
    | Raised _ => None
    end
  end.

Definition is_buy (s : Submission) : bool :=
  match Order.action (sub_order s) with
  | BUY | BUY_TO_COVER => true
  | SELL | SELL_SHORT => false
  end.

Definition trade_value_of (s : Submission) : Q :=
  Order.quantity (sub_order s) * sub_price s.

Definition Qsum (l : list Q) : Q := fold_right Qplus 0 l.

Definition buy_costs (subs : list Submission) : Q :=
  Qsum (map trade_value_of (filter is_buy subs)).

Definition sell_proceeds (subs : list Submission) : Q :=
  Qsum (map trade_value_of (filter (fun s => negb (is_buy s)) subs)).

Definition commissions (subs : list Submission) : Q :=
  4.95 * inject_Z (Z.of_nat (length subs)).

(** The cash after one leg that succeeds, from the cash before it: line 135
    for a buy, line 165 for a sell. *)
Definition cash_leg (cash : Q) (s : Submission) : Q :=
  if is_buy s
  then cash - (trade_value_of s + 4.95)
  else cash + (trade_value_of s - 4.95).

(** ** The cash legs on doubles *)

#[local] Set Warnings "-inexact-float".

(** The same two expressions in the arithmetic the code runs in, IEEE 754
    binary64, and the closed form of a sequence of legs evaluated in that
    arithmetic as it is written: the initial cash, less the sum of the buys,
    plus the sum of the sells, less the sum of the commissions. *)
Module Binary64.

Record Leg := mkLeg {
  buy : bool;                (* BUY or BUY_TO_COVER, else SELL or SELL_SHORT *)
  quantity : float;
  price : float
}.

Definition commission : float := 4.95%float.

(** Line 118. *)
Definition trade_value (l : Leg) : float := (quantity l * price l)%float.

(** Lines 135 and 165. *)
Definition cash_leg (cash : float) (l : Leg) : float :=
  if buy l
  then (cash - (trade_value l + commission))%float
  else (cash + (trade_value l - commission))%float.

Definition cash_after (cash : float) (legs : list Leg) : float :=
  fold_left cash_leg legs cash.

(** [sum(xs)], from 0, left to right. *)
Definition sum (xs : list float) : float := fold_left PrimFloat.add xs 0%float.

Definition closed_form (cash : float) (legs : list Leg) : float :=
  (cash
   - sum (map trade_value (filter buy legs))
   + sum (map trade_value (filter (fun l => negb (buy l)) legs))
   - sum (map (fun _ => commission) legs))%float.

End Binary64.

(** The snapshots [load_account] treats as "no account": no file, a file
    that cannot be read, text that is not JSON, or a JSON value that is
    falsy (null, false, 0, the empty string, array or object). *)
Definition no_usable_snapshot (f : file) : Prop :=
  match f with
  | Missing | Unreadable | Malformed => True
  | Content j => truthy j = false
  end.

(** The entry the first loop writes for a position. *)
Definition metrics_of (pos : Position.t) : Metrics.t :=
  Metrics.mk (or0 (Position.market_value pos)) 0
            (or0 (Position.unrealized_pl pos))
            (or0 (Position.unrealized_pl_percent pos)).

(** The sums of the portfolio analysis, position by position. *)
Definition unrealized_total (account : PaperAccount.t) : Q :=
  Qsum (map (fun kv => or0 (Position.unrealized_pl (snd kv)))
            (PaperAccount.positions account)).

Definition cost_total (account : PaperAccount.t) : Q :=
  Qsum (map (fun kv => Position.quantity (snd kv) * Position.cost_basis (snd kv))
            (PaperAccount.positions account)).

(** A position as [update_positions] leaves it for a price: the price, the
    market value [quantity * price], the unrealized P&L of that value over
    the cost, and that P&L as a percentage of the cost. *)
Definition marked (price : Q) (p : Position.t) : Position.t :=
  let market_value := Position.quantity p * price in
  let cost := Position.quantity p * Position.cost_basis p in
  Position.mk (Position.symbol p) (Position.quantity p)
              (Position.cost_basis p) (Some price) (Some market_value)
              (Some (market_value - cost))
              (Some ((market_value - cost) / cost * 100)).

(** The same for an item of the positions under a table of prices; an item
    the table has no price for is kept. *)
Definition marked_item (current_prices : Dict.t Q)
    (item : string * Position.t) : string * Position.t :=
  match Dict.get (fst item) current_prices with
  | Some price => (fst item, marked price (snd item))
  | None => item
  end.

(** The position is priced by the table and costs nothing: its
    [quantity * cost_basis] is zero. *)
Definition priced_at_no_cost (current_prices : Dict.t Q)
    (item : string * Position.t) : Prop :=
  (exists price, Dict.get (fst item) current_prices = Some price) /\
  Position.quantity (snd item) * Position.cost_basis (snd item) == 0.

(** The entries of the analysis before they are sorted: one for each
    position, with its weight in a portfolio worth [total]. *)
Definition entries_of (account : PaperAccount.t) (total : Q)
    : list (string * Metrics.t) :=
  map (fun kv =>
         (fst kv, PaperTradingService.set_weight total (metrics_of (snd kv))))
      (PaperAccount.positions account).

(** Entries by value, largest first. *)
Definition by_value_desc (x y : string * Metrics.t) : Prop :=
  Metrics.value (snd y) <= Metrics.value (snd x).

(** The market values of the positions, added up ([None] counts as 0). *)
Definition market_total (account : PaperAccount.t) : Q :=
  Qsum (map (fun kv => or0 (Position.market_value (snd kv)))
            (PaperAccount.positions account)).


(** The accounts a trace shows handed to [save_account], in order. *)
Definition accounts_saved (trace : list event) : list PaperAccount.t :=
  flat_map (fun e => match e with SaveAccount a => [a] | _ => [] end) trace.

(** The answers of the [submit_order] tool that report an accepted order. *)
Definition accepted (r : response) : bool :=
  match r with
  | Answer (Bought _ _ _) | Answer (Sold _ _ _) | Answer (SoldShort _ _ _)
  | Answer (OrderSubmitted _) => true
  | _ => false
  end.

(** ** Sample data: the scenarios of the test suite *)

Module Sample.
Definition env : Env := mkEnv 1000%Z "trade-0001" 1001%Z "2025-01-02".

Definition market (order_id symbol : string) (action : OrderAction)
    (quantity : Q) : Order.t :=
  Order.mk order_id symbol action quantity MARKET None None OPEN 999%Z
           None None.

Definition buy10 : Order.t := market "order-0001" "AAPL" BUY 10.
Definition sell10 : Order.t := market "order-0002" "AAPL" SELL 10.

(** A new account, a poor one, and one holding ten AAPL bought at 150. *)
Definition fresh : PaperAccount.t := PaperAccount.new 100000.0.
Definition poor : PaperAccount.t := PaperAccount.new 1000.0.
Definition holding : PaperAccount.t :=
  PaperAccount.mk 100000.0 [("AAPL", Position.new "AAPL" 10 150.0)]
                  [] [] [].

(** An account short ten AAPL, and the order that covers them. *)
Definition short : PaperAccount.t :=
  PaperAccount.mk 100000.0 [("AAPL", Position.new "AAPL" (-10) 150.0)]
                  [] [] [].
Definition cover10 : Order.t := market "order-0003" "AAPL" BUY_TO_COVER 10.

(** The short account marked at a price of 140: the ten shares are worth
    -1400 and show a gain of 100 on their cost of -1500. *)
Definition short_marked : PaperAccount.t :=
  PaperAccount.mk 100000.0
    [("AAPL",
      Position.mk "AAPL" (-10) 150.0 (Some 140.0) (Some (-1400.0))
                  (Some 100.0) (Some (-(20 # 3))))]
    [] [] [].

(** The portfolio of the analysis test: ten AAPL and five MSFT, marked. *)
Definition portfolio : PaperAccount.t :=
  PaperAccount.mk 50000.0
    [("AAPL",
      Position.mk "AAPL" 10 150.0 (Some 160.0) (Some 1600.0) (Some 100.0)
                  (Some 6.67));
     ("MSFT",
      Position.mk "MSFT" 5 200.0 (Some 220.0) (Some 1100.0) (Some 100.0)
                  (Some 10.0))]
    [] [] [].

(** Ten AAPL and five MSFT as bought, and the day's prices. *)
Definition unmarked : PaperAccount.t :=
  PaperAccount.mk 50000.0
    [("AAPL", Position.new "AAPL" 10 150.0);
     ("MSFT", Position.new "MSFT" 5 200.0)]
    [] [] [].
Definition prices : Dict.t Q := [("AAPL", 160.0); ("MSFT", 220.0)].

(** An account with a position that cost nothing. *)
Definition gifted : PaperAccount.t :=
  PaperAccount.mk 50000.0
    [("AAPL", Position.new "AAPL" 10 150.0);
     ("FREE", Position.new "FREE" 5 0)]
    [] [] [].

(** The analysis of [portfolio], computed. *)
Definition portfolio_analysis : Analysis.t :=
  Eval vm_compute in
    match PaperTradingService.analyze_portfolio portfolio with
    | Analyzed a => a
    | NoPositions => Analysis.mk 0 0 0 0 0 0 0 [] 0 None None
    end.

(** The same portfolio after three days of closed trades, and its analysis,
    computed. *)
Definition traded : PaperAccount.t :=
  PaperAccount.set_daily_pl
    [("2025-01-02", 100.0); ("2025-01-03", - 40.0); ("2025-01-06", 30.0)]
    portfolio.
Definition traded_analysis : Analysis.t :=
  Eval vm_compute in
    match PaperTradingService.analyze_portfolio traded with
    | Analyzed a => a
    | NoPositions => Analysis.mk 0 0 0 0 0 0 0 [] 0 None None
    end.


(** Trades of three different days. *)
Definition three_trades : PaperAccount.t :=
  PaperAccount.set_trades
    [Trade.mk "trade-0001" "order-0001" "AAPL" BUY 10 150.0
              100000000000%Z 4.95;
     Trade.mk "trade-0002" "order-0002" "AAPL" SELL 10 160.0
              300000000000%Z 4.95;
     Trade.mk "trade-0003" "order-0003" "MSFT" BUY 5 200.0
              200000000000%Z 4.95]
    fresh.

(** One share bought at 0.1 and sold at 0.1, as legs on doubles. *)
Definition dime_legs : list Binary64.Leg :=
  [Binary64.mkLeg true 1%float 0.1%float;
   Binary64.mkLeg false 1%float 0.1%float].

(** A field validator that accepts every JSON object. *)
Definition lenient (fields : list (string * json)) : outcome PaperAccount.t :=
  Returned fresh.

(** Buy ten at 150, then sell them at 160. *)
Definition round_trip : list Submission :=
  [mkSubmission env buy10 150.0; mkSubmission env sell10 160.0].
End Sample.

(** * Properties *)

(** ** Comparisons *)

Lemma Qltb_lt (x y : Q) : Qltb x y = true <-> x < y.
Proof.
  unfold Qltb. rewrite negb_true_iff.
  split; intro H.
  - apply Qnot_le_lt. intro Hle. apply Qle_bool_iff in Hle. congruence.
  - destruct (Qle_bool y x) eqn:E; [|reflexivity].
    apply Qle_bool_iff in E. exfalso. exact (Qlt_not_le _ _ H E).
Qed.

Lemma Qltb_ge (x y : Q) : Qltb x y = false <-> y <= x.
Proof.
  unfold Qltb. rewrite negb_false_iff. apply Qle_bool_iff.
Qed.

Lemma Qeq_bool_false (x y : Q) : Qeq_bool x y = false <-> ~ x == y.
Proof.
  split.
  - apply Qeq_bool_neq.
  - intro H. destruct (Qeq_bool x y) eqn:E; [|reflexivity].
    apply Qeq_bool_iff in E. contradiction.
Qed.

(** ** Dictionaries *)

Section DictFacts.
Context {V : Type}.
Implicit Types (d : Dict.t V) (k : string) (v : V).

Lemma get_set_same k v d : Dict.get k (Dict.set k v d) = Some v.
Proof.
  induction d as [|[k' v'] d IH]; simpl.
  - now rewrite String.eqb_refl.
  - destruct (String.eqb k k') eqn:E; simpl; rewrite E; auto.
Qed.

Lemma get_set_other k k' v d :
  k <> k' -> Dict.get k' (Dict.set k v d) = Dict.get k' d.
Proof.
  intro Hne. induction d as [|[k0 v0] d IH]; simpl.
  - destruct (String.eqb k' k) eqn:E; [|reflexivity].
    apply String.eqb_eq in E. congruence.
  - destruct (String.eqb k k0) eqn:E; simpl.
    + apply String.eqb_eq in E. subst k0.
      destruct (String.eqb k' k) eqn:E'; [|reflexivity].
      apply String.eqb_eq in E'. congruence.
    + now rewrite IH.
Qed.

Lemma get_del_same k d : Dict.get k (Dict.del k d) = None.
Proof.
  induction d as [|[k' v'] d IH]; simpl; [reflexivity|].
  destruct (String.eqb k k') eqn:E; simpl; [assumption|].
  now rewrite E.
Qed.

Lemma get_del_other k k' d :
  k <> k' -> Dict.get k' (Dict.del k d) = Dict.get k' d.
Proof.
  intro Hne. induction d as [|[k0 v0] d IH]; simpl; [reflexivity|].
  destruct (String.eqb k k0) eqn:E; simpl.
  - apply String.eqb_eq in E. subst k0.
    destruct (String.eqb k' k) eqn:E'; [|assumption].
    apply String.eqb_eq in E'. congruence.
  - now rewrite IH.
Qed.
End DictFacts.

(** ** Case analysis on [submit_order] *)

(** Splits the tests and look-ups a goal about [submit_order] is stuck on. *)
Ltac submit_cases :=
  repeat match goal with
  | |- context [if ?b then _ else _] => destruct b; simpl
  | |- context [match Dict.get ?k ?d with _ => _ end] =>
      destruct (Dict.get k d); simpl
  | |- context [truediv ?x ?y] => unfold truediv
  end.

(** BUY and BUY_TO_COVER take the same branch. *)
Lemma buy_branch (X : Type) (action : OrderAction) (a b c : X) :
  action = BUY \/ action = BUY_TO_COVER ->
  match action with
  | BUY | BUY_TO_COVER => a
  | SELL => b
  | SELL_SHORT => c
  end = a.
Proof. intros [-> | ->]; reflexivity. Qed.

(** ** Rejected market orders *)

(** C1. A MARKET order rejected for insufficient funds (BUY or BUY_TO_COVER
    with cash below trade value plus commission) or for insufficient shares
    (SELL of a symbol not held, or held in a smaller quantity) leaves the
    account as it was (cash, positions, orders, trades and daily P&L alike),
    saves nothing, and returns a failure. *)
Theorem rejection_leaves_account_untouched
    (env : Env) (order : Order.t) (account : PaperAccount.t) (price : Q) :
  Order.order_type order = MARKET ->
  insufficient_funds order account price \/ insufficient_shares order account ->
  let run := PaperTradingService.submit_order env order account price in
  account_after run = account /\
  saved run = [] /\
  exists r, result run = Returned r /\ SubmitResult.success r = false.
Proof.
  intros Hty Hrej. unfold PaperTradingService.submit_order.
  rewrite Hty. simpl.
  destruct Hrej as [[Hact Hcash] | [Hact Hpos]].
  - apply Qltb_lt in Hcash.
    destruct Hact as [-> | ->]; rewrite Hcash; simpl; eauto.
  - rewrite Hact.
    destruct (Dict.get (Order.symbol order) (PaperAccount.positions account))
      as [position|]; simpl.
    + apply Qltb_lt in Hpos. rewrite Hpos. simpl. eauto.
    + eauto.
Qed.

Lemma rejection_leaves_account_untouched_witness :
  let run :=
    PaperTradingService.submit_order Sample.env Sample.buy10 Sample.poor
                                     150.0 in
  account_after run = Sample.poor /\
  saved run = [] /\
  exists r, result run = Returned r /\ SubmitResult.success r = false.
Proof.
  apply (rejection_leaves_account_untouched
           Sample.env Sample.buy10 Sample.poor 150.0).
  - reflexivity.
  - left. split.
    + left. reflexivity.
    + reflexivity.
Defined.

(** ** Buying into a position *)

(** C2. A successful MARKET BUY or BUY_TO_COVER of [q2] at price [p2] on a
    symbol held with quantity [q1] and cost basis [p1] leaves the position
    with quantity [q1 + q2] and cost basis [(q1*p1 + q2*p2) / (q1 + q2)];
    on a symbol not held it creates the position with quantity [q2] and cost
    basis [p2]. *)
Theorem buy_averages_cost_basis
    (env : Env) (order : Order.t) (account : PaperAccount.t) (price : Q)
    (r : SubmitResult.t) :
  Order.order_type order = MARKET ->
  Order.action order = BUY \/ Order.action order = BUY_TO_COVER ->
  let run := PaperTradingService.submit_order env order account price in
  result run = Returned r ->
  SubmitResult.success r = true ->
  match Dict.get (Order.symbol order) (PaperAccount.positions account) with
  | Some held =>
    exists position,
      Dict.get (Order.symbol order)
               (PaperAccount.positions (account_after run)) = Some position /\
      Position.quantity position =
        Position.quantity held + Order.quantity order /\
      Position.cost_basis position =
        (Position.quantity held * Position.cost_basis held
         + Order.quantity order * price)
        / (Position.quantity held + Order.quantity order)
  | None =>
    Dict.get (Order.symbol order)
             (PaperAccount.positions (account_after run)) =
    Some (Position.new (Order.symbol order) (Order.quantity order) price)
  end.
Proof.
  intros Hty Hact. unfold PaperTradingService.submit_order.
  rewrite Hty. simpl.
  rewrite (buy_branch _ _ _ _ _ Hact).
  destruct (Qltb (PaperAccount.cash account)
                 (Order.quantity order * price + 4.95)); simpl.
  - intros [= <-]. discriminate.
  - destruct (Dict.get (Order.symbol order) (PaperAccount.positions account))
      as [held|] eqn:Hget; simpl.
    + unfold truediv.
      destruct (Qeq_bool (Position.quantity held + Order.quantity order) 0);
        simpl; [discriminate|].
      intros _ _. eexists. split.
      * rewrite get_set_same. reflexivity.
      * split; reflexivity.
    + intros _ _. apply get_set_same.
Qed.

Lemma buy_averages_cost_basis_witness :
  exists position,
    Dict.get "AAPL"
      (PaperAccount.positions
         (account_after
            (PaperTradingService.submit_order Sample.env Sample.buy10
                                              Sample.holding 170.0)))
    = Some position /\
    Position.quantity position = 10 + 10 /\
    Position.cost_basis position = (10 * 150.0 + 10 * 170.0) / (10 + 10).
Proof.
  apply (buy_averages_cost_basis Sample.env Sample.buy10 Sample.holding 170.0
           (SubmitResult.mk true (Bought 10 "AAPL" 170.0)
              (Order.mk "order-0001" "AAPL" BUY 10 MARKET None None EXECUTED
                        999%Z (Some 1000%Z) (Some 170.0))
              (Some (Trade.mk "trade-0001" "order-0001" "AAPL" BUY 10 170.0
                              1001%Z 4.95)))).
  - reflexivity.
  - left. reflexivity.
  - reflexivity.
  - reflexivity.
Defined.

(** ** Closing a position *)

(** C4. A MARKET SELL of exactly the held quantity succeeds, removes the
    symbol from the positions, and adds [trade_value - quantity * cost_basis]
    to the day's entry of [daily_pl], which starts from 0 when the day has
    no entry yet; the other days keep their entries. *)
Theorem full_sell_closes_position
    (env : Env) (order : Order.t) (account : PaperAccount.t) (price : Q)
    (held : Position.t) :
  Order.order_type order = MARKET ->
  Order.action order = SELL ->
  Dict.get (Order.symbol order) (PaperAccount.positions account) = Some held ->
  Order.quantity order == Position.quantity held ->
  let run := PaperTradingService.submit_order env order account price in
  let before :=
    match Dict.get (today env) (PaperAccount.daily_pl account) with
    | Some pl => pl
    | None => 0
    end in
  (exists r, result run = Returned r /\ SubmitResult.success r = true) /\
  Dict.get (Order.symbol order)
           (PaperAccount.positions (account_after run)) = None /\
  Dict.get (today env) (PaperAccount.daily_pl (account_after run)) =
    Some (before
          + (Order.quantity order * price
             - Order.quantity order * Position.cost_basis held)) /\
  forall day, day <> today env ->
    Dict.get day (PaperAccount.daily_pl (account_after run)) =
    Dict.get day (PaperAccount.daily_pl account).
Proof.
  intros Hty Hact Hget Hq. unfold PaperTradingService.submit_order.
  rewrite Hty. simpl. rewrite Hact, Hget.
  assert (Hlt : Qltb (Position.quantity held) (Order.quantity order) = false)
    by (apply Qltb_ge; rewrite Hq; apply Qle_refl).
  rewrite Hlt. simpl.
  assert (Hz : Qeq_bool (Position.quantity held - Order.quantity order) 0
               = true)
    by (apply Qeq_bool_iff; rewrite Hq; ring).
  rewrite Hz. simpl.
  split; [eauto|]. split; [apply get_del_same|].
  unfold Dict.mem.
  destruct (Dict.get (today env) (PaperAccount.daily_pl account))
    as [pl|] eqn:Hday.
  - rewrite Hday. split.
    + apply get_set_same.
    + intros day Hne. apply get_set_other. congruence.
  - rewrite get_set_same. split.
    + apply get_set_same.
    + intros day Hne. rewrite !get_set_other by congruence. reflexivity.
Qed.

Lemma full_sell_closes_position_witness :
  let run :=
    PaperTradingService.submit_order Sample.env Sample.sell10 Sample.holding
                                     160.0 in
  (exists r, result run = Returned r /\ SubmitResult.success r = true) /\
  Dict.get "AAPL" (PaperAccount.positions (account_after run)) = None /\
  Dict.get "2025-01-02" (PaperAccount.daily_pl (account_after run)) =
    Some (0 + (10 * 160.0 - 10 * 150.0)) /\
  forall day, day <> "2025-01-02" ->
    Dict.get day (PaperAccount.daily_pl (account_after run)) =
    Dict.get day (PaperAccount.daily_pl Sample.holding).
Proof.
  apply (full_sell_closes_position Sample.env Sample.sell10 Sample.holding
           160.0 (Position.new "AAPL" 10 150.0)).
  - reflexivity.
  - reflexivity.
  - reflexivity.
  - reflexivity.
Defined.

(** ** The unguarded division of the cost-basis update *)

(** C10. On a MARKET BUY or BUY_TO_COVER of a held symbol with funds enough,
    the cost-basis update divides by [position.quantity + order.quantity]
    unguarded: against a short position of [-q], buying exactly [q] raises
    [ZeroDivisionError], nothing having been saved, and whenever the combined
    quantity is not zero the call returns a success. *)
Theorem covering_a_short_exactly_divides_by_zero
    (env : Env) (order : Order.t) (account : PaperAccount.t) (price : Q)
    (held : Position.t) :
  Order.order_type order = MARKET ->
  Order.action order = BUY \/ Order.action order = BUY_TO_COVER ->
  Dict.get (Order.symbol order) (PaperAccount.positions account) = Some held ->
  Order.quantity order * price + 4.95 <= PaperAccount.cash account ->
  let run := PaperTradingService.submit_order env order account price in
  (forall q, Position.quantity held == - q -> Order.quantity order == q ->
     result run = Raised ZeroDivisionError /\ saved run = []) /\
  (~ Position.quantity held + Order.quantity order == 0 ->
     exists r, result run = Returned r /\ SubmitResult.success r = true).
Proof.
  intros Hty Hact Hget Hcash. unfold PaperTradingService.submit_order.
  rewrite Hty. simpl.
  rewrite (buy_branch _ _ _ _ _ Hact).
  apply Qltb_ge in Hcash. rewrite Hcash. simpl. rewrite Hget.
  unfold truediv. split.
  - intros q Hheld Hq.
    assert (Hz : Qeq_bool (Position.quantity held + Order.quantity order) 0
                 = true)
      by (apply Qeq_bool_iff; rewrite Hheld, Hq; ring).
    rewrite Hz. simpl. split; reflexivity.
  - intro Hnz. apply Qeq_bool_false in Hnz. rewrite Hnz. simpl. eauto.
Qed.

(** ** Cancelling *)

(** C8. [cancel_order] succeeds exactly when the identifier is in the
    account's orders with status OPEN; then the stored order becomes CANCELED,
    nothing else in the account changes, and the account is saved.  On an
    order of another status it fails with the message that names that status,
    on an unknown identifier with the not-found message, and in both the
    account stays as it was and nothing is saved. *)
Theorem cancel_order_state_machine
    (order_id : string) (account : PaperAccount.t) :
  let run := PaperTradingService.cancel_order order_id account in
  let found := Dict.get order_id (PaperAccount.orders account) in
  ((exists r, result run = Returned r /\ CancelResult.success r = true) <->
   (exists o, found = Some o /\ Order.status o = OPEN)) /\
  (forall o, found = Some o -> Order.status o = OPEN ->
     Dict.get order_id (PaperAccount.orders (account_after run))
       = Some (Order.set_status CANCELED o) /\
     account_after run =
       PaperAccount.set_orders
         (Dict.set order_id (Order.set_status CANCELED o)
                   (PaperAccount.orders account)) account /\
     saved run = [account_after run]) /\
  (forall o, found = Some o -> Order.status o <> OPEN ->
     result run =
       Returned (CancelResult.mk false (CannotCancel (Order.status o))) /\
     account_after run = account /\
     saved run = []) /\
  (found = None ->
     result run = Returned (CancelResult.mk false (OrderNotFound order_id)) /\
     account_after run = account /\
     saved run = []).
Proof.
  unfold PaperTradingService.cancel_order. cbv zeta.
  destruct (Dict.get order_id (PaperAccount.orders account)) as [o|] eqn:Hget.
  - destruct (Order.status o) eqn:Hst; simpl;
      (split; [split;
         [ intros (r & [= <-] & Hs); try discriminate; eauto
         | intros (o' & [= <-] & Ho); try congruence; eauto ] |]);
      (split; [intros o' [= <-] Ho; try congruence;
               rewrite get_set_same; unfold Order.set_status;
               rewrite ?Hst; auto |]);
      (split; [intros o' [= <-] Ho; try congruence; rewrite ?Hst; auto
              | discriminate]).
  - simpl. split.
    + split.
      * intros (r & [= <-] & Hs). discriminate.
      * intros (o & Ho & _). discriminate.
    + repeat split; try discriminate; auto.
Qed.

Lemma covering_a_short_exactly_divides_by_zero_witness :
  let run :=
    PaperTradingService.submit_order Sample.env Sample.cover10 Sample.short
                                     140.0 in
  (forall q, - 10 == - q -> 10 == q ->
     result run = Raised ZeroDivisionError /\ saved run = []) /\
  (~ - 10 + 10 == 0 ->
     exists r, result run = Returned r /\ SubmitResult.success r = true).
Proof.
  apply (covering_a_short_exactly_divides_by_zero
           Sample.env Sample.cover10 Sample.short 140.0
           (Position.new "AAPL" (-10) 150.0)).
  - reflexivity.
  - right. reflexivity.
  - reflexivity.
  - discriminate.
Defined.

(** ** The stamps of a rejected order *)

(** The execution stamps are written at the head of the MARKET branch, so
    every result of that branch carries them, the rejections included. *)
Lemma market_result_is_stamped
    (env : Env) (o : Order.t) (account : PaperAccount.t) (price : Q)
    (r : SubmitResult.t) :
  Order.order_type o = MARKET ->
  result (PaperTradingService.submit_order env o account price)
    = Returned r ->
  Order.status (SubmitResult.order r) = EXECUTED /\
  Order.executed_at (SubmitResult.order r) = Some (executed_now env) /\
  Order.execution_price (SubmitResult.order r) = Some price.
Proof.
  intros Hty. unfold PaperTradingService.submit_order. rewrite Hty. simpl.
  destruct (Order.action o); submit_cases;
    try discriminate; intros [= <-]; auto.
Qed.

(** C6. The order of the insufficient-funds scenario (ten AAPL at 150 against
    1000 of cash) comes back refused, and yet with status EXECUTED and with
    [executed_at] and [execution_price] set. *)
Theorem rejected_order_comes_back_executed :
  exists r,
    result (PaperTradingService.submit_order Sample.env Sample.buy10
                                             Sample.poor 150.0)
      = Returned r /\
    SubmitResult.success r = false /\
    SubmitResult.message r = InsufficientFunds (10 * 150.0 + 4.95) 1000.0 /\
    Order.status (SubmitResult.order r) = EXECUTED /\
    Order.executed_at (SubmitResult.order r) = Some 1000%Z /\
    Order.execution_price (SubmitResult.order r) = Some 150.0.
Proof.
  eexists. repeat split.
Qed.

(** ** Conservation of funds *)

(** One successful market submission moves the cash by the trade value and
    one commission. *)
Lemma successful_submission_cash (s : Submission) (account : PaperAccount.t)
    (r : SubmitResult.t) :
  Order.order_type (sub_order s) = MARKET ->
  let run :=
    PaperTradingService.submit_order (sub_env s) (sub_order s) account
                                     (sub_price s) in
  result run = Returned r ->
  SubmitResult.success r = true ->
  PaperAccount.cash (account_after run) =
    if is_buy s
    then PaperAccount.cash account - (trade_value_of s + 4.95)
    else PaperAccount.cash account + (trade_value_of s - 4.95).
Proof.
  intro Hty. unfold PaperTradingService.submit_order, is_buy, trade_value_of.
  rewrite Hty. simpl.
  destruct (Order.action (sub_order s)); submit_cases;
    try discriminate; intros [= <-]; simpl; try discriminate; reflexivity.
Qed.

Lemma commissions_cons (s : Submission) (subs : list Submission) :
  commissions (s :: subs) == 4.95 + commissions subs.
Proof.
  unfold commissions. simpl length. rewrite Nat2Z.inj_succ.
  unfold Z.succ. rewrite inject_Z_plus. ring.
Qed.

(** In exact arithmetic the legs of a sequence that succeeds add up to the
    closed form: the initial cash, less the trade values of the buys, plus
    the trade values of the sells, less one commission of 4.95 for each
    trade.  On doubles the two agree up to rounding only (see
    [closed_form_is_not_exact_on_doubles] below). *)
Theorem funds_conservation (subs : list Submission)
    (account final : PaperAccount.t) :
  Forall (fun s => Order.order_type (sub_order s) = MARKET) subs ->
  submit_all subs account = Some final ->
  PaperAccount.cash final ==
    PaperAccount.cash account - buy_costs subs + sell_proceeds subs
    - commissions subs.
Proof.
  intro Hall. revert account.
  induction Hall as [|s subs Hty Hall IH]; intros account Hrun.
  - injection Hrun as <-. unfold buy_costs, sell_proceeds, commissions.
    simpl. ring.
  - simpl in Hrun.
    destruct (result (PaperTradingService.submit_order
                        (sub_env s) (sub_order s) account (sub_price s)))
      as [r|e] eqn:Hres; [|discriminate].
    destruct (SubmitResult.success r) eqn:Hok; [|discriminate].
    apply IH in Hrun. rewrite Hrun.
    rewrite (successful_submission_cash s account r Hty Hres Hok).
    rewrite commissions_cons.
    unfold buy_costs, sell_proceeds. simpl filter.
    destruct (is_buy s); simpl; ring.
Qed.

Lemma funds_conservation_witness :
  exists final,
    submit_all Sample.round_trip Sample.fresh = Some final /\
    PaperAccount.cash final ==
      PaperAccount.cash Sample.fresh - buy_costs Sample.round_trip
      + sell_proceeds Sample.round_trip - commissions Sample.round_trip.
Proof.
  eexists. split.
  - reflexivity.
  - apply (funds_conservation Sample.round_trip Sample.fresh).
    + repeat constructor.
    + reflexivity.
Defined.

(** C3, as the code has it. When every submission of a sequence of MARKET
    orders succeeds, the final cash is what the legs make of the initial
    cash, one after the other in the order of the submissions: each buy
    turns [cash] into [cash - (quantity * price + 4.95)] and each sell into
    [cash + (quantity * price - 4.95)]. *)
Theorem cash_follows_the_legs (subs : list Submission)
    (account final : PaperAccount.t) :
  Forall (fun s => Order.order_type (sub_order s) = MARKET) subs ->
  submit_all subs account = Some final ->
  PaperAccount.cash final = fold_left cash_leg subs (PaperAccount.cash account).
Proof.
  intro Hall. revert account.
  induction Hall as [|s subs Hty Hall IH]; intros account Hrun.
  - injection Hrun as <-. reflexivity.
  - simpl in Hrun.
    destruct (result (PaperTradingService.submit_order
                        (sub_env s) (sub_order s) account (sub_price s)))
      as [r|e] eqn:Hres; [|discriminate].
    destruct (SubmitResult.success r) eqn:Hok; [|discriminate].
    apply IH in Hrun. rewrite Hrun. simpl fold_left. unfold cash_leg at 2.
    now rewrite (successful_submission_cash s account r Hty Hres Hok).
Qed.

Lemma cash_follows_the_legs_witness :
  exists final,
    submit_all Sample.round_trip Sample.fresh = Some final /\
    PaperAccount.cash final
    = fold_left cash_leg Sample.round_trip (PaperAccount.cash Sample.fresh).
Proof.
  eexists. split.
  - reflexivity.
  - apply (cash_follows_the_legs Sample.round_trip Sample.fresh).
    + repeat constructor.
    + reflexivity.
Defined.

(** C3, as stated, fails on doubles: from 100000.0, one share bought at 0.1
    and sold at 0.1 leaves 99990.09999999999 after the two legs, and the
    closed form gives 99990.1. *)
Lemma closed_form_is_not_exact_on_doubles :
  Binary64.cash_after 100000%float Sample.dime_legs
    = 99990.09999999999%float /\
  Binary64.closed_form 100000%float Sample.dime_legs = 99990.1%float /\
  PrimFloat.eqb (Binary64.cash_after 100000%float Sample.dime_legs)
                (Binary64.closed_form 100000%float Sample.dime_legs)
    = false.
Proof. repeat split. Qed.

(** ** Loading the account *)

Lemma load_account_validates_truthy_content
    (validate_fields : list (string * json) -> outcome PaperAccount.t)
    (j : json) :
  truthy j = true ->
  PaperTradingService.load_account validate_fields (Content j) =
    (PaperTradingService.model_validate validate_fields j, []).
Proof.
  intro H. unfold PaperTradingService.load_account. simpl. now rewrite H.
Qed.

(** C5, as the code has it. When there is no usable snapshot (no file, an
    unreadable file, text that is not JSON, or a falsy JSON value)
    [load_account] does not raise: it returns a new account with cash
    100000.0 and empty positions, orders, trades and daily P&L, after handing
    that account to [save_account]. *)
Theorem load_account_falls_back
    (validate_fields : list (string * json) -> outcome PaperAccount.t)
    (f : file) :
  no_usable_snapshot f ->
  exists account,
    PaperTradingService.load_account validate_fields f
      = (Returned account, [account]) /\
    PaperAccount.cash account = 100000.0 /\
    PaperAccount.positions account = [] /\
    PaperAccount.orders account = [] /\
    PaperAccount.trades account = [] /\
    PaperAccount.daily_pl account = [].
Proof.
  intro H. exists (PaperAccount.new 100000.0).
  unfold PaperTradingService.load_account.
  destruct f as [| | |j]; simpl in *; try rewrite H; simpl;
    repeat split; reflexivity.
Qed.

Lemma load_account_falls_back_witness :
  exists account,
    PaperTradingService.load_account Sample.lenient Malformed
      = (Returned account, [account]) /\
    PaperAccount.cash account = 100000.0 /\
    PaperAccount.positions account = [] /\
    PaperAccount.orders account = [] /\
    PaperAccount.trades account = [] /\
    PaperAccount.daily_pl account = [].
Proof.
  apply (load_account_falls_back Sample.lenient Malformed). exact I.
Defined.

(** C5, as stated, fails: a snapshot holding the JSON array [[1]] parses,
    is truthy, and makes [load_account] raise the validation error, whatever
    the validation of the fields accepts. *)
Lemma load_account_raises_on_a_json_array :
  PaperTradingService.load_account Sample.lenient (Content (JArr [JNum 1]))
    = (Raised ValidationError, []).
Proof. reflexivity. Qed.

(** ** Validation of the quantity *)

(** C7, as stated, fails: [create_order] builds an OPEN order of quantity 0
    (and of any other quantity). *)
Lemma create_order_accepts_zero_quantity :
  PaperTradingService.create_order "order-0001" 999%Z "aapl" BUY 0 "MARKET"
                                   None None (Some 150.0)
    = Returned (Order.mk "order-0001" "AAPL" BUY 0 MARKET None None OPEN
                         999%Z None None).
Proof. reflexivity. Qed.

Lemma OrderType_of_name_value (t : OrderType) :
  OrderType_of_name (OrderType_value t) = Some t.
Proof. destruct t; reflexivity. Qed.

(** C7, as the code has it. The check of the quantity is in the
    [submit_order] tool: for a quantity that is zero or negative the tool
    answers with an error and touches nothing (the account is not loaded, no
    quote is fetched, no order is created, nothing is saved); the error is
    the quantity message once the action and the order type are known names
    and a LIMIT order has its price.  [create_order] itself accepts every
    quantity. *)
Theorem tool_rejects_nonpositive_quantity
    (validate_fields : list (string * json) -> outcome PaperAccount.t)
    (get_quote : string -> option Q) (new_order_id : string)
    (order_now : datetime) (f : file) (env : Env)
    (symbol action : string) (quantity : Q) (order_type : string)
    (limit_price : option Q) :
  quantity <= 0 ->
  (exists r,
     Trading.submit_order validate_fields get_quote new_order_id order_now
       f env symbol action quantity order_type limit_price = (r, []) /\
     (r = QuantityNotPositive \/ r = LimitPriceRequired \/
      r = ErrorSubmitting AttributeError) /\
     (forall a t,
        OrderAction_of_name (upper action) = Some a ->
        OrderType_of_name (upper order_type) = Some t ->
        (t = LIMIT -> limit_price <> None) ->
        r = QuantityNotPositive)) /\
  (forall a t stop_price current_price,
     PaperTradingService.create_order new_order_id order_now symbol a
       quantity (OrderType_value t) limit_price stop_price current_price
     = Returned (Order.mk new_order_id (upper symbol) a quantity t
                          limit_price stop_price OPEN order_now None None)).
Proof.
  intro Hq. apply Qle_bool_iff in Hq. split.
  - unfold Trading.submit_order.
    destruct (OrderAction_of_name (upper action)) as [a|].
    2:{ eexists. split; [reflexivity|]. split; [auto|]. discriminate. }
    destruct (OrderType_of_name (upper order_type)) as [t|].
    2:{ eexists. split; [reflexivity|]. split; [auto|]. discriminate. }
    destruct t, limit_price as [lp|]; rewrite ?Hq;
      (eexists; split; [reflexivity|]; split; [auto|]);
      intros a' t' _ [= <-] Hl; try reflexivity;
      exfalso; now apply Hl.
  - intros a t sp cp. unfold PaperTradingService.create_order.
    now rewrite OrderType_of_name_value.
Qed.

Lemma tool_rejects_nonpositive_quantity_witness :
  (exists r,
     Trading.submit_order Sample.lenient (fun _ => Some 150.0) "order-0001"
       999%Z Missing Sample.env "aapl" "buy" (-5) "market" None = (r, []) /\
     (r = QuantityNotPositive \/ r = LimitPriceRequired \/
      r = ErrorSubmitting AttributeError) /\
     (forall a t,
        OrderAction_of_name (upper "buy") = Some a ->
        OrderType_of_name (upper "market") = Some t ->
        (t = LIMIT -> @None Q <> None) ->
        r = QuantityNotPositive)) /\
  (forall a t stop_price current_price,
     PaperTradingService.create_order "order-0001" 999%Z "aapl" a
       (-5) (OrderType_value t) None stop_price current_price
     = Returned (Order.mk "order-0001" (upper "aapl") a (-5) t
                          None stop_price OPEN 999%Z None None)).
Proof.
  apply (tool_rejects_nonpositive_quantity Sample.lenient
           (fun _ => Some 150.0) "order-0001" 999%Z Missing Sample.env
           "aapl" "buy" (-5) "market" None).
  discriminate.
Defined.

(** ** Portfolio analysis *)

Section DictAppend.
Context {V : Type}.

Lemma get_app (k : string) (d1 d2 : Dict.t V) :
  Dict.get k (d1 ++ d2)%list =
  match Dict.get k d1 with
  | Some v => Some v
  | None => Dict.get k d2
  end.
Proof.
  induction d1 as [|[k' v'] d1 IH]; simpl; [reflexivity|].
  destruct (String.eqb k k'); [reflexivity | exact IH].
Qed.

Lemma set_new_key (k : string) (v : V) (d : Dict.t V) :
  Dict.get k d = None -> Dict.set k v d = (d ++ [(k, v)])%list.
Proof.
  induction d as [|[k' v'] d IH]; simpl; [reflexivity|].
  destruct (String.eqb k k'); [discriminate|].
  intro H. now rewrite IH.
Qed.
End DictAppend.

(** On a dictionary (keys all different) the first loop of
    [analyze_portfolio] adds up the market values and the costs and writes
    one entry for each position, in the order of the positions. *)
Lemma accumulate_spec (l : Dict.t Position.t) :
  forall (tv ti : Q) (d : Dict.t Metrics.t),
    NoDup (Dict.keys l) ->
    (forall k, In k (Dict.keys l) -> Dict.get k d = None) ->
    fold_left PaperTradingService.accumulate l (tv, ti, d) =
    (fold_left Qplus
       (map (fun kv => or0 (Position.market_value (snd kv))) l) tv,
     fold_left Qplus
       (map (fun kv =>
               Position.quantity (snd kv) * Position.cost_basis (snd kv)) l)
       ti,
     (d ++ map (fun kv => (fst kv, metrics_of (snd kv))) l)%list).
Proof.
  induction l as [|[k p] l IH]; intros tv ti d Hnd Hfresh; simpl.
  - now rewrite app_nil_r.
  - inversion Hnd as [|? ? Hk Hnd']; subst.
    rewrite (set_new_key k _ d) by (apply Hfresh; left; reflexivity).
    rewrite IH; [| assumption |].
    + rewrite <- app_assoc. reflexivity.
    + intros k' Hin. rewrite get_app.
      rewrite (Hfresh k') by (right; assumption). simpl.
      destruct (String.eqb k' k) eqn:E; [|reflexivity].
      apply String.eqb_eq in E. subst k'. contradiction.
Qed.

Lemma insert_desc_perm (x : string * Metrics.t) (l : list (string * Metrics.t)) :
  Permutation (PaperTradingService.insert_desc x l) (x :: l).
Proof.
  induction l as [|y l IH]; simpl; [apply Permutation_refl|].
  destruct (Qltb (Metrics.value (snd x)) (Metrics.value (snd y))).
  - rewrite IH. apply perm_swap.
  - apply Permutation_refl.
Qed.

Lemma sorted_desc_perm (l : list (string * Metrics.t)) :
  Permutation (PaperTradingService.sorted_desc l) l.
Proof.
  induction l as [|x l IH]; simpl; [constructor|].
  rewrite insert_desc_perm. now constructor.
Qed.

Lemma sum_from (l : list Q) (a : Q) : fold_left Qplus l a == a + Qsum l.
Proof.
  revert a. induction l as [|x l IH]; intro a; simpl.
  - ring.
  - rewrite IH. ring.
Qed.

Lemma sum_Qsum (l : list Q) : PaperTradingService.sum l == Qsum l.
Proof. unfold PaperTradingService.sum. rewrite sum_from. ring. Qed.

Lemma Qsum_perm (l l' : list Q) : Permutation l l' -> Qsum l == Qsum l'.
Proof.
  induction 1; simpl.
  - reflexivity.
  - now rewrite IHPermutation.
  - ring.
  - etransitivity; eassumption.
Qed.

Lemma Qltb_comp (x x' y y' : Q) :
  x == x' -> y == y' -> Qltb x y = Qltb x' y'.
Proof. intros Hx Hy. unfold Qltb. now rewrite Hx, Hy. Qed.

(** C9, as the code has it. For an account with at least one position
    (the positions being a dictionary, their keys are all different)
    [analyze_portfolio] reports as [total_unrealized_pl_percent] the sum of
    the positions' unrealized P&L divided by the sum of their
    [quantity * cost_basis], times 100, when that sum of costs is positive,
    and 0 when it is zero or negative. *)
Theorem analyze_portfolio_unrealized_percent (account : PaperAccount.t) :
  PaperAccount.positions account <> [] ->
  NoDup (Dict.keys (PaperAccount.positions account)) ->
  exists a,
    PaperTradingService.analyze_portfolio account = Analyzed a /\
    Analysis.total_unrealized_pl a == unrealized_total account /\
    Analysis.total_unrealized_pl_percent a ==
      if Qltb 0 (cost_total account)
      then unrealized_total account / cost_total account * 100
      else 0.
Proof.
  intros Hne Hnd. unfold PaperTradingService.analyze_portfolio.
  destruct (PaperAccount.positions account) as [|kp l] eqn:Hpos;
    [congruence|].
  cbn [Dict.is_empty]. rewrite <- Hpos in *. clear Hpos Hne kp l.
  rewrite accumulate_spec by (assumption || reflexivity).
  eexists. split; [reflexivity|].
  cbn [Analysis.total_unrealized_pl Analysis.total_unrealized_pl_percent].
  set (entries :=
         map (fun kv => (fst kv,
                         PaperTradingService.set_weight _ (snd kv))) _).
  assert (Hpl :
    PaperTradingService.sum
      (map (fun pos => Metrics.unrealized_pl (snd pos))
           (PaperTradingService.sorted_desc entries))
    == unrealized_total account).
  { rewrite sum_Qsum.
    rewrite (Qsum_perm _ (map (fun pos => Metrics.unrealized_pl (snd pos)) entries))
      by (apply Permutation_map, sorted_desc_perm).
    unfold entries, unrealized_total. cbn [app Dict.empty].
    rewrite !map_map. cbn. reflexivity. }
  assert (Hcost :
    fold_left Qplus
      (map (fun kv =>
              Position.quantity (snd kv) * Position.cost_basis (snd kv))
           (PaperAccount.positions account)) 0
    == cost_total account).
  { rewrite sum_from. unfold cost_total. ring. }
  split; [exact Hpl|].
  rewrite (Qltb_comp 0 0 _ (cost_total account)) by (reflexivity || exact Hcost).
  destruct (Qltb 0 (cost_total account)); [|reflexivity].
  now rewrite Hpl, Hcost.
Qed.

Lemma analyze_portfolio_unrealized_percent_witness :
  exists a,
    PaperTradingService.analyze_portfolio Sample.portfolio = Analyzed a /\
    Analysis.total_unrealized_pl a == unrealized_total Sample.portfolio /\
    Analysis.total_unrealized_pl_percent a ==
      if Qltb 0 (cost_total Sample.portfolio)
      then unrealized_total Sample.portfolio / cost_total Sample.portfolio
           * 100
      else 0.
Proof.
  apply (analyze_portfolio_unrealized_percent Sample.portfolio).
  - discriminate.
  - constructor.
    + intros [H | []]. discriminate H.
    + constructor; [intros [] | constructor].
Defined.

(** C9, as stated, fails: for the account short ten AAPL the sum of the
    costs is -1500, not zero, and the quotient the claim gives is -20/3, but
    [analyze_portfolio] reports 0. *)
Lemma negative_cost_reports_zero_percent :
  exists a,
    PaperTradingService.analyze_portfolio Sample.short_marked = Analyzed a /\
    Analysis.total_unrealized_pl_percent a = 0 /\
    cost_total Sample.short_marked == - 1500 /\
    unrealized_total Sample.short_marked / cost_total Sample.short_marked
      * 100 == - (20 # 3).
Proof.
  eexists. repeat split.
Qed.

(** ** The scenarios of the specification *)

(** Buying ten AAPL at 150 out of 100000 leaves 98495.05, the position of
    ten at 150, and one trade. *)
Example scenario_buy :
  let run :=
    PaperTradingService.submit_order Sample.env Sample.buy10 Sample.fresh
                                     150.0 in
  PaperAccount.cash (account_after run) == 98495.05 /\
  Dict.get "AAPL" (PaperAccount.positions (account_after run))
    = Some (Position.new "AAPL" 10 150.0) /\
  length (PaperAccount.trades (account_after run)) = 1%nat /\
  saved run = [account_after run].
Proof. repeat split. Qed.

(** Selling them at 160 brings the cash to 100090.10, closes the position
    and books 100 for the day. *)
Example scenario_round_trip :
  exists final,
    submit_all Sample.round_trip Sample.fresh = Some final /\
    PaperAccount.cash final == 100090.10 /\
    PaperAccount.positions final = [] /\
    (exists pl, Dict.get "2025-01-02" (PaperAccount.daily_pl final) = Some pl
                /\ pl == 100).
Proof.
  eexists. split; [reflexivity|]. split; [reflexivity|].
  split; [reflexivity|]. eexists. split; reflexivity.
Qed.

(** The analysis of the test portfolio: 52700 in all, 2700 invested, 200 of
    unrealized gain, AAPL first. *)
Example scenario_analysis :
  exists a,
    PaperTradingService.analyze_portfolio Sample.portfolio = Analyzed a /\
    Analysis.total_value a == 52700 /\
    Analysis.invested a == 2700 /\
    Analysis.total_unrealized_pl a == 200 /\
    map fst (Analysis.positions a) = ["AAPL"; "MSFT"] /\
    Analysis.num_positions a = 2%nat.
Proof.
  eexists. repeat split.
Qed.

(** * Further properties of the ledger *)

(** ** What an executed order leaves in the account *)

(** X1. When a MARKET submission succeeds, whatever the action, the result
    carries the order with its execution stamps and the trade of that order;
    the account stores that order under its identifier, has that one trade
    appended to its trades, and is saved as it stands at the end. *)
Theorem executed_order_is_recorded
    (env : Env) (o : Order.t) (account : PaperAccount.t) (price : Q)
    (r : SubmitResult.t) :
  Order.order_type o = MARKET ->
  let run := PaperTradingService.submit_order env o account price in
  result run = Returned r ->
  SubmitResult.success r = true ->
  let stamped :=
    Order.mk (Order.order_id o) (Order.symbol o) (Order.action o)
             (Order.quantity o) MARKET (Order.limit_price o)
             (Order.stop_price o) EXECUTED (Order.submitted_at o)
             (Some (executed_now env)) (Some price) in
  let executed :=
    Trade.mk (new_trade_id env) (Order.order_id o) (Order.symbol o)
             (Order.action o) (Order.quantity o) price (trade_now env)
             4.95 in
  SubmitResult.order r = stamped /\
  SubmitResult.trade r = Some executed /\
  Dict.get (Order.order_id o) (PaperAccount.orders (account_after run))
    = Some stamped /\
  PaperAccount.trades (account_after run)
    = (PaperAccount.trades account ++ [executed])%list /\
  saved run = [account_after run].
Proof.
  intro Hty. unfold PaperTradingService.submit_order. rewrite Hty. simpl.
  destruct (Order.action o) eqn:Hact; submit_cases; try discriminate;
    intros [= <-]; simpl; try discriminate; intros _;
    unfold Order.set_execution_price, Order.set_executed_at,
           Order.set_status; simpl; rewrite Hty, ?Hact;
    (repeat split; try reflexivity; apply get_set_same).
Qed.

Lemma executed_order_is_recorded_witness :
  let run :=
    PaperTradingService.submit_order Sample.env Sample.buy10 Sample.fresh
                                     150.0 in
  let stamped :=
    Order.mk "order-0001" "AAPL" BUY 10 MARKET None None EXECUTED 999%Z
             (Some 1000%Z) (Some 150.0) in
  let executed :=
    Trade.mk "trade-0001" "order-0001" "AAPL" BUY 10 150.0 1001%Z 4.95 in
  SubmitResult.order
    (SubmitResult.mk true (Bought 10 "AAPL" 150.0) stamped (Some executed))
    = stamped /\
  SubmitResult.trade
    (SubmitResult.mk true (Bought 10 "AAPL" 150.0) stamped (Some executed))
    = Some executed /\
  Dict.get "order-0001" (PaperAccount.orders (account_after run))
    = Some stamped /\
  PaperAccount.trades (account_after run) = ([] ++ [executed])%list /\
  saved run = [account_after run].
Proof.
  apply (executed_order_is_recorded Sample.env Sample.buy10 Sample.fresh
           150.0
           (SubmitResult.mk true (Bought 10 "AAPL" 150.0)
              (Order.mk "order-0001" "AAPL" BUY 10 MARKET None None EXECUTED
                        999%Z (Some 1000%Z) (Some 150.0))
              (Some (Trade.mk "trade-0001" "order-0001" "AAPL" BUY 10 150.0
                              1001%Z 4.95)))).
  - reflexivity.
  - reflexivity.
  - reflexivity.
Defined.

(** ** What a submission never touches *)

(** X2. Whatever the order and however the call ends (accepted, refused or
    stopped by the division), [submit_order] leaves the positions of every
    other symbol and the stored orders of every other identifier as they
    were, and keeps the trades already recorded at the head of the list. *)
Theorem submit_order_frame
    (env : Env) (o : Order.t) (account : PaperAccount.t) (price : Q) :
  let run := PaperTradingService.submit_order env o account price in
  (forall symbol, symbol <> Order.symbol o ->
     Dict.get symbol (PaperAccount.positions (account_after run))
     = Dict.get symbol (PaperAccount.positions account)) /\
  (forall order_id, order_id <> Order.order_id o ->
     Dict.get order_id (PaperAccount.orders (account_after run))
     = Dict.get order_id (PaperAccount.orders account)) /\
  exists added,
    PaperAccount.trades (account_after run)
    = (PaperAccount.trades account ++ added)%list /\
    (length added <= 1)%nat.
Proof.
  unfold PaperTradingService.submit_order.
  destruct (Order.order_type o); simpl;
    try (split; [reflexivity|];
         split; [intros; apply get_set_other; congruence|];
         exists []; rewrite app_nil_r; split; [reflexivity | simpl; lia]).
  destruct (Order.action o); submit_cases;
    unfold PaperTradingService.record_and_save; simpl;
    (split;
     [ intros symbol Hne;
       rewrite ?get_del_other, ?get_set_other by congruence; reflexivity
     | split;
       [ intros order_id Hne;
         rewrite ?get_set_other by congruence; reflexivity
       | first [ exists []; rewrite app_nil_r; split;
                 [reflexivity | simpl; lia]
               | eexists; split; [reflexivity | simpl; lia] ] ] ]).
Qed.

(** ** Selling *)

(** X3. A MARKET SELL of less than the held quantity succeeds, credits the
    trade value less the commission, and leaves the position with the
    remaining quantity and its cost basis (and every other field) as before;
    no realized P&L is booked: [daily_pl] is unchanged. *)
Theorem partial_sell_keeps_cost_basis
    (env : Env) (o : Order.t) (account : PaperAccount.t) (price : Q)
    (held : Position.t) :
  Order.order_type o = MARKET ->
  Order.action o = SELL ->
  Dict.get (Order.symbol o) (PaperAccount.positions account) = Some held ->
  Order.quantity o < Position.quantity held ->
  let run := PaperTradingService.submit_order env o account price in
  (exists r, result run = Returned r /\ SubmitResult.success r = true) /\
  Dict.get (Order.symbol o) (PaperAccount.positions (account_after run))
    = Some (Position.set_quantity
              (Position.quantity held - Order.quantity o) held) /\
  PaperAccount.daily_pl (account_after run) = PaperAccount.daily_pl account /\
  PaperAccount.cash (account_after run)
    = PaperAccount.cash account + (Order.quantity o * price - 4.95).
Proof.
  intros Hty Hact Hget Hlt. unfold PaperTradingService.submit_order.
  rewrite Hty. simpl. rewrite Hact, Hget.
  assert (H1 : Qltb (Position.quantity held) (Order.quantity o) = false)
    by (apply Qltb_ge, Qlt_le_weak, Hlt).
  assert (H2 : Qeq_bool (Position.quantity held - Order.quantity o) 0 = false).
  { apply Qeq_bool_false. intro H. lra. }
  rewrite H1. simpl. rewrite H2. simpl.
  split; [eauto|]. split; [apply get_set_same|]. split; reflexivity.
Qed.

Lemma partial_sell_keeps_cost_basis_witness :
  let o := Sample.market "order-0004" "AAPL" SELL 4 in
  let run :=
    PaperTradingService.submit_order Sample.env o Sample.holding 160.0 in
  (exists r, result run = Returned r /\ SubmitResult.success r = true) /\
  Dict.get "AAPL" (PaperAccount.positions (account_after run))
    = Some (Position.set_quantity (10 - 4) (Position.new "AAPL" 10 150.0)) /\
  PaperAccount.daily_pl (account_after run) = [] /\
  PaperAccount.cash (account_after run) = 100000.0 + (4 * 160.0 - 4.95).
Proof.
  apply (partial_sell_keeps_cost_basis Sample.env
           (Sample.market "order-0004" "AAPL" SELL 4) Sample.holding 160.0
           (Position.new "AAPL" 10 150.0)).
  - reflexivity.
  - reflexivity.
  - reflexivity.
  - reflexivity.
Defined.

(** X4. A MARKET SELL_SHORT is never refused: whatever the cash and whatever
    is held, it credits the trade value less the commission and sets the
    symbol's position to the quantity sold, negated, at the execution price
    as cost basis, replacing a position already held rather than merging
    with it; [daily_pl] is unchanged. *)
Theorem sell_short_overwrites_position
    (env : Env) (o : Order.t) (account : PaperAccount.t) (price : Q) :
  Order.order_type o = MARKET ->
  Order.action o = SELL_SHORT ->
  let run := PaperTradingService.submit_order env o account price in
  (exists r, result run = Returned r /\ SubmitResult.success r = true) /\
  Dict.get (Order.symbol o) (PaperAccount.positions (account_after run))
    = Some (Position.new (Order.symbol o) (- Order.quantity o) price) /\
  PaperAccount.cash (account_after run)
    = PaperAccount.cash account + (Order.quantity o * price - 4.95) /\
  PaperAccount.daily_pl (account_after run) = PaperAccount.daily_pl account.
Proof.
  intros Hty Hact. unfold PaperTradingService.submit_order.
  rewrite Hty. simpl. rewrite Hact. simpl.
  split; [eauto|]. split; [apply get_set_same|]. split; reflexivity.
Qed.

Lemma sell_short_overwrites_position_witness :
  let o := Sample.market "order-0005" "AAPL" SELL_SHORT 3 in
  let run :=
    PaperTradingService.submit_order Sample.env o Sample.holding 160.0 in
  (exists r, result run = Returned r /\ SubmitResult.success r = true) /\
  Dict.get "AAPL" (PaperAccount.positions (account_after run))
    = Some (Position.new "AAPL" (- 3) 160.0) /\
  PaperAccount.cash (account_after run) = 100000.0 + (3 * 160.0 - 4.95) /\
  PaperAccount.daily_pl (account_after run) = [].
Proof.
  apply (sell_short_overwrites_position Sample.env
           (Sample.market "order-0005" "AAPL" SELL_SHORT 3) Sample.holding
           160.0).
  - reflexivity.
  - reflexivity.
Defined.

(** ** Buying *)

(** X5. A MARKET BUY or BUY_TO_COVER that succeeds never leaves the cash
    negative, whatever the cash was. *)
Theorem buy_never_overdraws
    (env : Env) (o : Order.t) (account : PaperAccount.t) (price : Q)
    (r : SubmitResult.t) :
  Order.order_type o = MARKET ->
  Order.action o = BUY \/ Order.action o = BUY_TO_COVER ->
  let run := PaperTradingService.submit_order env o account price in
  result run = Returned r ->
  SubmitResult.success r = true ->
  0 <= PaperAccount.cash (account_after run).
Proof.
  intros Hty Hact. unfold PaperTradingService.submit_order.
  rewrite Hty. simpl. rewrite (buy_branch _ _ _ _ _ Hact).
  destruct (Qltb (PaperAccount.cash account) (Order.quantity o * price + 4.95))
    eqn:Hfunds; simpl.
  - intros [= <-]. discriminate.
  - apply Qltb_ge in Hfunds.
    assert (Hcash : 0 <= PaperAccount.cash account
                         - (Order.quantity o * price + 4.95)) by lra.
    submit_cases; try discriminate; intros _ _; exact Hcash.
Qed.

Lemma buy_never_overdraws_witness :
  0 <= PaperAccount.cash
         (account_after
            (PaperTradingService.submit_order Sample.env Sample.buy10
                                              Sample.fresh 150.0)).
Proof.
  apply (buy_never_overdraws Sample.env Sample.buy10 Sample.fresh 150.0
           (SubmitResult.mk true (Bought 10 "AAPL" 150.0)
              (Order.mk "order-0001" "AAPL" BUY 10 MARKET None None EXECUTED
                        999%Z (Some 1000%Z) (Some 150.0))
              (Some (Trade.mk "trade-0001" "order-0001" "AAPL" BUY 10 150.0
                              1001%Z 4.95)))).
  - reflexivity.
  - left. reflexivity.
  - reflexivity.
  - reflexivity.
Defined.

(** ** Buying and selling back *)

(** X6. On an account that does not hold the symbol and can pay for them,
    buying [q] at [p] and then selling the same [q] at [p'] both succeed; the
    symbol is again absent from the positions, the cash is
    [cash - (q*p + 4.95) + (q*p' - 4.95)], the two legs applied in turn, and
    the day's entry of [daily_pl] has grown by [q*p' - q*p] (from 0 when the
    day had no entry). *)
Theorem buy_then_sell_back
    (env env' : Env) (b s : Order.t) (account : PaperAccount.t) (p p' : Q) :
  Order.order_type b = MARKET -> Order.action b = BUY ->
  Order.order_type s = MARKET -> Order.action s = SELL ->
  Order.symbol s = Order.symbol b ->
  Order.quantity s = Order.quantity b ->
  Dict.get (Order.symbol b) (PaperAccount.positions account) = None ->
  Order.quantity b * p + 4.95 <= PaperAccount.cash account ->
  let q := Order.quantity b in
  let before :=
    match Dict.get (today env') (PaperAccount.daily_pl account) with
    | Some pl => pl
    | None => 0
    end in
  exists final,
    submit_all [mkSubmission env b p; mkSubmission env' s p'] account
      = Some final /\
    Dict.get (Order.symbol b) (PaperAccount.positions final) = None /\
    PaperAccount.cash final
      = PaperAccount.cash account - (q * p + 4.95) + (q * p' - 4.95) /\
    Dict.get (today env') (PaperAccount.daily_pl final)
      = Some (before + (q * p' - q * p)).
Proof.
  intros Hbt Hba Hst Hsa Hsym Hq Hnone Hfunds. cbv zeta.
  apply Qltb_ge in Hfunds.
  assert (Hbuy :
    exists a1 r1,
      PaperTradingService.submit_order env b account p
        = Effect a1 [a1] (Returned r1) /\
      SubmitResult.success r1 = true /\
      PaperAccount.positions a1
        = Dict.set (Order.symbol b)
            (Position.new (Order.symbol b) (Order.quantity b) p)
            (PaperAccount.positions account) /\
      PaperAccount.cash a1
        = PaperAccount.cash account - (Order.quantity b * p + 4.95) /\
      PaperAccount.daily_pl a1 = PaperAccount.daily_pl account).
  { unfold PaperTradingService.submit_order.
    rewrite Hbt. simpl. rewrite Hba, Hfunds. simpl. rewrite Hnone.
    unfold PaperTradingService.record_and_save,
           PaperTradingService.save_account.
    eexists. eexists. split; [reflexivity|]. repeat split. }
  destruct Hbuy as (a1 & r1 & Hbuy & Hok1 & Hpos1 & Hcash1 & Hpl1).
  unfold submit_all. cbn [sub_env sub_order sub_price].
  rewrite Hbuy. cbn [result account_after]. rewrite Hok1.
  unfold PaperTradingService.submit_order.
  rewrite Hst. simpl. rewrite Hsa, Hsym, Hq, Hpos1, Hcash1, Hpl1.
  rewrite get_set_same. simpl.
  assert (H1 : Qltb (Order.quantity b) (Order.quantity b) = false)
    by (apply Qltb_ge, Qle_refl).
  assert (H2 : Qeq_bool (Order.quantity b - Order.quantity b) 0 = true)
    by (apply Qeq_bool_iff; ring).
  rewrite H1. simpl. rewrite H2. simpl.
  eexists. split; [reflexivity|]. simpl.
  split; [apply get_del_same|]. split; [reflexivity|].
  unfold Dict.mem.
  destruct (Dict.get (today env') (PaperAccount.daily_pl account)) eqn:Hday.
  - rewrite Hday. apply get_set_same.
  - rewrite get_set_same. apply get_set_same.
Qed.

Lemma buy_then_sell_back_witness :
  exists final,
    submit_all Sample.round_trip Sample.fresh = Some final /\
    Dict.get "AAPL" (PaperAccount.positions final) = None /\
    PaperAccount.cash final
      = 100000.0 - (10 * 150.0 + 4.95) + (10 * 160.0 - 4.95) /\
    Dict.get "2025-01-02" (PaperAccount.daily_pl final)
      = Some (0 + (10 * 160.0 - 10 * 150.0)).
Proof.
  apply (buy_then_sell_back Sample.env Sample.env Sample.buy10 Sample.sell10
           Sample.fresh 150.0 160.0).
  - reflexivity.
  - reflexivity.
  - reflexivity.
  - reflexivity.
  - reflexivity.
  - reflexivity.
  - reflexivity.
  - discriminate.
Defined.

(** ** Submitting and cancelling *)

(** X7. An order of a type other than MARKET that is OPEN is only stored:
    cash, positions, trades and daily P&L stay as they were and no trade is
    returned.  Cancelling it afterwards succeeds and leaves it stored as
    CANCELED; cancelling it once more fails with the message that names
    CANCELED, the account unchanged and nothing saved. *)
Theorem resting_order_is_cancelled_once
    (env : Env) (o : Order.t) (account : PaperAccount.t) (price : Q) :
  Order.order_type o <> MARKET ->
  Order.status o = OPEN ->
  let id := Order.order_id o in
  let submitted := PaperTradingService.submit_order env o account price in
  let first :=
    PaperTradingService.cancel_order id (account_after submitted) in
  let second :=
    PaperTradingService.cancel_order id (account_after first) in
  result submitted
    = Returned (SubmitResult.mk true (OrderSubmitted id) o None) /\
  account_after submitted
    = PaperAccount.set_orders
        (Dict.set id o (PaperAccount.orders account)) account /\
  result first
    = Returned (CancelResult.mk true
                  (OrderCanceled id (Order.quantity o) (Order.symbol o))) /\
  Dict.get id (PaperAccount.orders (account_after first))
    = Some (Order.set_status CANCELED o) /\
  saved first = [account_after first] /\
  result second
    = Returned (CancelResult.mk false (CannotCancel CANCELED)) /\
  account_after second = account_after first /\
  saved second = [].
Proof.
  intros Hty Hopen. cbv zeta.
  assert (Hsub :
    PaperTradingService.submit_order env o account price =
    Effect
      (PaperAccount.set_orders
         (Dict.set (Order.order_id o) o (PaperAccount.orders account))
         account)
      [PaperAccount.set_orders
         (Dict.set (Order.order_id o) o (PaperAccount.orders account))
         account]
      (Returned (SubmitResult.mk true (OrderSubmitted (Order.order_id o))
                                 o None))).
  { unfold PaperTradingService.submit_order.
    destruct (Order.order_type o); try reflexivity. congruence. }
  rewrite Hsub. cbn [account_after result saved].
  set (a1 := PaperAccount.set_orders _ account).
  assert (Hfirst :
    PaperTradingService.cancel_order (Order.order_id o) a1 =
    let a2 :=
      PaperAccount.set_orders
        (Dict.set (Order.order_id o) (Order.set_status CANCELED o)
                  (PaperAccount.orders a1)) a1 in
    Effect a2 [a2]
      (Returned (CancelResult.mk true
                   (OrderCanceled (Order.order_id o) (Order.quantity o)
                                  (Order.symbol o))))).
  { unfold PaperTradingService.cancel_order. unfold a1 at 1.
    cbn [PaperAccount.orders PaperAccount.set_orders].
    rewrite get_set_same, Hopen. reflexivity. }
  rewrite Hfirst. cbv zeta. cbn [account_after result saved].
  unfold PaperTradingService.cancel_order.
  cbn [PaperAccount.orders PaperAccount.set_orders].
  rewrite !get_set_same. simpl.
  repeat split; reflexivity.
Qed.

Lemma resting_order_is_cancelled_once_witness :
  let o :=
    Order.mk "order-0006" "AAPL" BUY 10 LIMIT (Some 140.0) None OPEN 999%Z
             None None in
  let id := "order-0006" in
  let submitted :=
    PaperTradingService.submit_order Sample.env o Sample.fresh 150.0 in
  let first :=
    PaperTradingService.cancel_order id (account_after submitted) in
  let second :=
    PaperTradingService.cancel_order id (account_after first) in
  result submitted
    = Returned (SubmitResult.mk true (OrderSubmitted id) o None) /\
  account_after submitted
    = PaperAccount.set_orders [(id, o)] Sample.fresh /\
  result first
    = Returned (CancelResult.mk true (OrderCanceled id 10 "AAPL")) /\
  Dict.get id (PaperAccount.orders (account_after first))
    = Some (Order.set_status CANCELED o) /\
  saved first = [account_after first] /\
  result second
    = Returned (CancelResult.mk false (CannotCancel CANCELED)) /\
  account_after second = account_after first /\
  saved second = [].
Proof.
  apply (resting_order_is_cancelled_once Sample.env
           (Order.mk "order-0006" "AAPL" BUY 10 LIMIT (Some 140.0) None OPEN
                     999%Z None None)
           Sample.fresh 150.0).
  - discriminate.
  - reflexivity.
Defined.

(** The order a successful MARKET submission stores is EXECUTED. *)
Lemma executed_order_is_stored
    (env : Env) (o : Order.t) (account : PaperAccount.t) (price : Q)
    (r : SubmitResult.t) :
  Order.order_type o = MARKET ->
  let run := PaperTradingService.submit_order env o account price in
  result run = Returned r ->
  SubmitResult.success r = true ->
  exists stored,
    Dict.get (Order.order_id o) (PaperAccount.orders (account_after run))
      = Some stored /\
    Order.status stored = EXECUTED.
Proof.
  intro Hty. unfold PaperTradingService.submit_order. rewrite Hty. simpl.
  destruct (Order.action o); submit_cases; try discriminate;
    intros [= <-]; simpl; try discriminate; intros _;
    (eexists; split; [apply get_set_same | reflexivity]).
Qed.

(** X8. An order that a MARKET submission has executed cannot be cancelled:
    [cancel_order] on its identifier fails with the message that names
    EXECUTED, leaves the account as the submission left it and saves
    nothing. *)
Theorem executed_order_cannot_be_cancelled
    (env : Env) (o : Order.t) (account : PaperAccount.t) (price : Q)
    (r : SubmitResult.t) :
  Order.order_type o = MARKET ->
  let run := PaperTradingService.submit_order env o account price in
  result run = Returned r ->
  SubmitResult.success r = true ->
  let cancel :=
    PaperTradingService.cancel_order (Order.order_id o) (account_after run) in
  result cancel = Returned (CancelResult.mk false (CannotCancel EXECUTED)) /\
  account_after cancel = account_after run /\
  saved cancel = [].
Proof.
  intros Hty run Hres Hok.
  destruct (executed_order_is_stored env o account price r Hty Hres Hok)
    as (stored & Hstored & Hst).
  fold run in Hstored. cbv zeta.
  unfold PaperTradingService.cancel_order. rewrite Hstored, Hst. simpl.
  repeat split; reflexivity.
Qed.

Lemma executed_order_cannot_be_cancelled_witness :
  let run :=
    PaperTradingService.submit_order Sample.env Sample.buy10 Sample.fresh
                                     150.0 in
  let cancel :=
    PaperTradingService.cancel_order "order-0001" (account_after run) in
  result cancel = Returned (CancelResult.mk false (CannotCancel EXECUTED)) /\
  account_after cancel = account_after run /\
  saved cancel = [].
Proof.
  apply (executed_order_cannot_be_cancelled Sample.env Sample.buy10
           Sample.fresh 150.0
           (SubmitResult.mk true (Bought 10 "AAPL" 150.0)
              (Order.mk "order-0001" "AAPL" BUY 10 MARKET None None EXECUTED
                        999%Z (Some 1000%Z) (Some 150.0))
              (Some (Trade.mk "trade-0001" "order-0001" "AAPL" BUY 10 150.0
                              1001%Z 4.95)))).
  - reflexivity.
  - reflexivity.
  - reflexivity.
Defined.

(** ** Refreshing the positions *)

Lemma refresh_marked (price : Q) (p : Position.t) :
  ~ Position.quantity p * Position.cost_basis p == 0 ->
  PaperTradingService.refresh price p = (marked price p, Returned tt).
Proof.
  intro H. unfold PaperTradingService.refresh, truediv. simpl.
  apply Qeq_bool_false in H. rewrite H. reflexivity.
Qed.

Lemma refresh_raises (price : Q) (p : Position.t) :
  Position.quantity p * Position.cost_basis p == 0 ->
  snd (PaperTradingService.refresh price p) = Raised ZeroDivisionError /\
  Position.quantity (fst (PaperTradingService.refresh price p))
    = Position.quantity p /\
  Position.cost_basis (fst (PaperTradingService.refresh price p))
    = Position.cost_basis p.
Proof.
  intro H. unfold PaperTradingService.refresh, truediv. simpl.
  apply Qeq_bool_iff in H. rewrite H. repeat split.
Qed.

Lemma refresh_all_marked (current_prices : Dict.t Q)
    (items : Dict.t Position.t) :
  (forall item, In item items -> ~ priced_at_no_cost current_prices item) ->
  PaperTradingService.refresh_all current_prices items
    = (map (marked_item current_prices) items, Returned tt).
Proof.
  induction items as [|[k p] items IH]; intro Hok; simpl; [reflexivity|].
  rewrite IH by (intros; apply Hok; right; assumption).
  change (marked_item current_prices (k, p)) with
    (match Dict.get k current_prices with
     | Some price => (k, marked price p)
     | None => (k, p)
     end).
  destruct (Dict.get k current_prices) as [price|] eqn:Hget; [|reflexivity].
  rewrite refresh_marked; [reflexivity|].
  intro Hz. apply (Hok (k, p)); [left; reflexivity|].
  split; [exists price; exact Hget | exact Hz].
Qed.

(** X9. When no position that the table prices has a zero
    [quantity * cost_basis], [update_positions] returns the account with
    every priced position marked (current price as given, market value
    [quantity * price], unrealized P&L [market value - quantity * cost_basis]
    and that P&L over the cost, times 100) and every other position as it
    was, in the same order; symbols, quantities and cost bases, the cash, the
    orders, the trades and the daily P&L are untouched and nothing is
    saved. *)
Theorem update_positions_marks_priced_positions
    (account : PaperAccount.t) (current_prices : Dict.t Q) :
  (forall item, In item (PaperAccount.positions account) ->
     ~ priced_at_no_cost current_prices item) ->
  let updated :=
    PaperAccount.set_positions
      (map (marked_item current_prices) (PaperAccount.positions account))
      account in
  PaperTradingService.update_positions account current_prices
    = Effect updated [] (Returned updated).
Proof.
  intro Hok. unfold PaperTradingService.update_positions.
  rewrite refresh_all_marked by assumption. reflexivity.
Qed.

Lemma update_positions_marks_priced_positions_witness :
  PaperTradingService.update_positions Sample.unmarked Sample.prices
    = Effect
        (PaperAccount.set_positions
           (map (marked_item Sample.prices)
                (PaperAccount.positions Sample.unmarked))
           Sample.unmarked)
        []
        (Returned
           (PaperAccount.set_positions
              (map (marked_item Sample.prices)
                   (PaperAccount.positions Sample.unmarked))
              Sample.unmarked)).
Proof.
  apply (update_positions_marks_priced_positions Sample.unmarked
           Sample.prices).
  intros item [<- | [<- | []]] [_ Hz]; discriminate Hz.
Defined.

Lemma refresh_all_keys (current_prices : Dict.t Q)
    (items : Dict.t Position.t) :
  Dict.keys (fst (PaperTradingService.refresh_all current_prices items))
    = Dict.keys items.
Proof.
  unfold Dict.keys.
  induction items as [|[k p] items IH]; simpl; [reflexivity|].
  destruct (Dict.get k current_prices) as [price|].
  - destruct (PaperTradingService.refresh price p) as [p' [u|e]];
      [|reflexivity].
    destruct (PaperTradingService.refresh_all current_prices items).
    simpl in *. now rewrite IH.
  - destruct (PaperTradingService.refresh_all current_prices items).
    simpl in *. now rewrite IH.
Qed.

Lemma refresh_all_raises (current_prices : Dict.t Q)
    (items : Dict.t Position.t) (e : exn) :
  snd (PaperTradingService.refresh_all current_prices items) = Raised e ->
  e = ZeroDivisionError /\
  exists item, In item items /\ priced_at_no_cost current_prices item.
Proof.
  induction items as [|[k p] items IH]; simpl; [discriminate|].
  destruct (Dict.get k current_prices) as [price|] eqn:Hget.
  - destruct (Qeq_bool (Position.quantity p * Position.cost_basis p) 0)
      eqn:Hz.
    + apply Qeq_bool_iff in Hz.
      destruct (refresh_raises price p Hz) as (Hr & _).
      destruct (PaperTradingService.refresh price p) as [p' r].
      simpl in Hr. subst r. simpl. intros [= <-]. split; [reflexivity|].
      exists (k, p). split; [left; reflexivity|].
      split; [exists price; exact Hget | exact Hz].
    + apply Qeq_bool_false in Hz. rewrite (refresh_marked price p Hz).
      destruct (PaperTradingService.refresh_all current_prices items)
        as [rest r].
      simpl in *. intro Hr. destruct (IH Hr) as (He & item & Hin & Hbad).
      split; [exact He|]. exists item. split; [right; exact Hin | exact Hbad].
  - destruct (PaperTradingService.refresh_all current_prices items)
      as [rest r].
    simpl in *. intro Hr. destruct (IH Hr) as (He & item & Hin & Hbad).
    split; [exact He|]. exists item. split; [right; exact Hin | exact Hbad].
Qed.

Lemma refresh_all_raises_if (current_prices : Dict.t Q)
    (items : Dict.t Position.t) (item : string * Position.t) :
  In item items ->
  priced_at_no_cost current_prices item ->
  snd (PaperTradingService.refresh_all current_prices items)
    = Raised ZeroDivisionError.
Proof.
  intros Hin Hbad. induction items as [|[k p] items IH]; [destruct Hin|].
  simpl.
  destruct (Dict.get k current_prices) as [price|] eqn:Hget.
  - destruct (Qeq_bool (Position.quantity p * Position.cost_basis p) 0)
      eqn:Hz.
    + apply Qeq_bool_iff in Hz.
      destruct (refresh_raises price p Hz) as (Hr & _).
      destruct (PaperTradingService.refresh price p) as [p' r].
      simpl in Hr. subst r. reflexivity.
    + apply Qeq_bool_false in Hz. rewrite (refresh_marked price p Hz).
      destruct Hin as [<- | Hin].
      * destruct Hbad as [_ Hzero]. contradiction.
      * specialize (IH Hin).
        destruct (PaperTradingService.refresh_all current_prices items).
        exact IH.
  - destruct Hin as [<- | Hin].
    + destruct Hbad as [[price Hprice] _]. simpl in Hprice. congruence.
    + specialize (IH Hin).
      destruct (PaperTradingService.refresh_all current_prices items).
      exact IH.
Qed.

(** X10. [update_positions] raises exactly when some position that the table
    prices has a zero [quantity * cost_basis] (a zero cost basis, say), and
    what it raises is then [ZeroDivisionError]; it raises nothing else.
    However the call ends, the positions keep their symbols in their order,
    the rest of the account is untouched and nothing is saved. *)
Theorem update_positions_raises_on_zero_cost
    (account : PaperAccount.t) (current_prices : Dict.t Q) :
  let run := PaperTradingService.update_positions account current_prices in
  (result run = Raised ZeroDivisionError <->
   exists item, In item (PaperAccount.positions account) /\
                priced_at_no_cost current_prices item) /\
  (forall e, result run = Raised e -> e = ZeroDivisionError) /\
  Dict.keys (PaperAccount.positions (account_after run))
    = Dict.keys (PaperAccount.positions account) /\
  PaperAccount.set_positions (PaperAccount.positions account)
                             (account_after run) = account /\
  saved run = [].
Proof.
  cbv zeta. unfold PaperTradingService.update_positions.
  pose proof (refresh_all_keys current_prices
                (PaperAccount.positions account)) as Hkeys.
  pose proof (refresh_all_raises current_prices
                (PaperAccount.positions account)) as Hraise.
  pose proof (refresh_all_raises_if current_prices
                (PaperAccount.positions account)) as Hif.
  destruct (PaperTradingService.refresh_all current_prices
              (PaperAccount.positions account)) as [positions r].
  simpl in Hkeys, Hraise, Hif.
  assert (Hacc :
    PaperAccount.set_positions (PaperAccount.positions account)
      (PaperAccount.set_positions positions account) = account)
    by (destruct account; reflexivity).
  destruct r as [u|e]; simpl.
  - split.
    + split; [discriminate|].
      intros (item & Hin & Hbad). discriminate (Hif item Hin Hbad).
    + split; [discriminate|]. repeat split; assumption.
  - destruct (Hraise e eq_refl) as (-> & Hex).
    split; [split; [intros _; exact Hex | reflexivity]|].
    split; [intros e [= <-]; reflexivity|]. repeat split; assumption.
Qed.

Lemma marked_item_involved (current_prices : Dict.t Q)
    (item : string * Position.t) :
  fst (marked_item current_prices item) = fst item /\
  Position.quantity (snd (marked_item current_prices item))
    = Position.quantity (snd item) /\
  Position.cost_basis (snd (marked_item current_prices item))
    = Position.cost_basis (snd item) /\
  marked_item current_prices (marked_item current_prices item)
    = marked_item current_prices item.
Proof.
  unfold marked_item.
  destruct (Dict.get (fst item) current_prices) as [price|] eqn:Hget; simpl.
  - rewrite Hget. repeat split.
  - rewrite Hget. repeat split.
Qed.

(** X11. Refreshing twice is refreshing once: when no priced position has a
    zero [quantity * cost_basis], [update_positions] applied with the same
    prices to the account it has just returned returns that account
    unchanged. *)
Theorem update_positions_is_idempotent
    (account : PaperAccount.t) (current_prices : Dict.t Q) :
  (forall item, In item (PaperAccount.positions account) ->
     ~ priced_at_no_cost current_prices item) ->
  let once :=
    account_after
      (PaperTradingService.update_positions account current_prices) in
  PaperTradingService.update_positions once current_prices
    = Effect once [] (Returned once).
Proof.
  intro Hok. cbv zeta. unfold PaperTradingService.update_positions.
  rewrite (refresh_all_marked current_prices
             (PaperAccount.positions account) Hok).
  cbn [account_after PaperAccount.positions PaperAccount.set_positions].
  rewrite refresh_all_marked.
  - rewrite map_map.
    rewrite (map_ext _ (marked_item current_prices))
      by (intro item; apply marked_item_involved).
    reflexivity.
  - intros item Hin [[price Hget] Hz].
    apply in_map_iff in Hin. destruct Hin as (item0 & <- & Hin0).
    destruct (marked_item_involved current_prices item0)
      as (Hk & Hq & Hc & _).
    apply (Hok item0 Hin0). split.
    + exists price. now rewrite <- Hk.
    + now rewrite <- Hq, <- Hc.
Qed.

Lemma update_positions_is_idempotent_witness :
  let once :=
    account_after
      (PaperTradingService.update_positions Sample.unmarked Sample.prices) in
  PaperTradingService.update_positions once Sample.prices
    = Effect once [] (Returned once).
Proof.
  apply (update_positions_is_idempotent Sample.unmarked Sample.prices).
  intros item [<- | [<- | []]] [_ Hz]; discriminate Hz.
Defined.

(** ** More on the portfolio analysis *)

(** What [analyze_portfolio] returns for a dictionary of positions, field
    by field. *)
Lemma analyze_portfolio_fields (account : PaperAccount.t) (a : Analysis.t) :
  PaperTradingService.analyze_portfolio account = Analyzed a ->
  NoDup (Dict.keys (PaperAccount.positions account)) ->
  let tv := Analysis.total_value a in
  tv = fold_left Qplus
         (map (fun kv => or0 (Position.market_value (snd kv)))
              (PaperAccount.positions account))
         (PaperAccount.cash account) /\
  Analysis.positions a
    = PaperTradingService.sorted_desc (entries_of account tv) /\
  Analysis.cash a = PaperAccount.cash account /\
  Analysis.cash_percent a
    = (if Qltb 0 tv then PaperAccount.cash account / tv * 100 else 0) /\
  Analysis.invested a = tv - PaperAccount.cash account /\
  Analysis.invested_percent a
    = (if Qltb 0 tv then (tv - PaperAccount.cash account) / tv * 100
       else 0) /\
  Analysis.num_positions a = length (Analysis.positions a) /\
  Analysis.most_concentrated a
    = match Analysis.positions a with
      | most :: _ => Some (fst most, Metrics.weight (snd most))
      | [] => None
      end /\
  Analysis.total_unrealized_pl a
    = PaperTradingService.sum
        (map (fun pos => Metrics.unrealized_pl (snd pos))
             (Analysis.positions a)).
Proof.
  intros Hrun Hnd. unfold PaperTradingService.analyze_portfolio in Hrun.
  destruct (Dict.is_empty (PaperAccount.positions account));
    [discriminate|].
  rewrite accumulate_spec in Hrun by (assumption || reflexivity).
  injection Hrun as <-. cbv zeta. cbn [app Dict.empty].
  unfold entries_of. cbn -[PaperTradingService.sorted_desc fold_left Qltb].
  rewrite !map_map. cbn -[PaperTradingService.sorted_desc fold_left Qltb].
  repeat split; reflexivity.
Qed.

Lemma insert_desc_sorted (x : string * Metrics.t)
    (l : list (string * Metrics.t)) :
  StronglySorted by_value_desc l ->
  StronglySorted by_value_desc (PaperTradingService.insert_desc x l).
Proof.
  induction 1 as [|y l Hl IH Hy]; simpl.
  - repeat constructor.
  - destruct (Qltb (Metrics.value (snd x)) (Metrics.value (snd y))) eqn:E.
    + constructor; [exact IH|].
      apply (Permutation_Forall (Permutation_sym (insert_desc_perm x l))).
      constructor; [|exact Hy].
      apply Qltb_lt in E. unfold by_value_desc. now apply Qlt_le_weak.
    + apply Qltb_ge in E. constructor.
      * constructor; assumption.
      * constructor; [exact E|].
        apply (Forall_impl _ (P := by_value_desc y)); [|exact Hy].
        intros z Hz. unfold by_value_desc in *. now apply Qle_trans with (2 := E).
Qed.

Lemma sorted_desc_sorted (l : list (string * Metrics.t)) :
  StronglySorted by_value_desc (PaperTradingService.sorted_desc l).
Proof.
  induction l as [|x l IH]; simpl; [constructor|].
  now apply insert_desc_sorted.
Qed.

(** X12. The positions of an analysis come by value, largest first; they are
    the entries of the account's positions (one each, valued at the
    position's market value, [None] counting as 0) in another order, and
    [num_positions] is the number of positions of the account. *)
Theorem analysis_lists_positions_by_value
    (account : PaperAccount.t) (a : Analysis.t) :
  PaperTradingService.analyze_portfolio account = Analyzed a ->
  NoDup (Dict.keys (PaperAccount.positions account)) ->
  StronglySorted
    (fun x y => Metrics.value (snd y) <= Metrics.value (snd x))
    (Analysis.positions a) /\
  Permutation (Analysis.positions a)
              (entries_of account (Analysis.total_value a)) /\
  Analysis.num_positions a = length (PaperAccount.positions account).
Proof.
  intros Hrun Hnd.
  destruct (analyze_portfolio_fields account a Hrun Hnd)
    as (_ & Hpos & _ & _ & _ & _ & Hnum & _).
  rewrite Hnum, Hpos. split; [apply sorted_desc_sorted|].
  split; [apply sorted_desc_perm|].
  rewrite (Permutation_length (sorted_desc_perm _)).
  unfold entries_of. apply length_map.
Qed.

Lemma analysis_lists_positions_by_value_witness :
  StronglySorted
    (fun x y => Metrics.value (snd y) <= Metrics.value (snd x))
    (Analysis.positions Sample.portfolio_analysis) /\
  Permutation (Analysis.positions Sample.portfolio_analysis)
              (entries_of Sample.portfolio
                          (Analysis.total_value Sample.portfolio_analysis)) /\
  Analysis.num_positions Sample.portfolio_analysis
    = length (PaperAccount.positions Sample.portfolio).
Proof.
  apply (analysis_lists_positions_by_value Sample.portfolio
           Sample.portfolio_analysis).
  - vm_compute. reflexivity.
  - constructor.
    + intros [H | []]. discriminate H.
    + constructor; [intros [] | constructor].
Defined.


(** X13. An analysis never divides by a total that is not positive: when
    [total_value] is 0 or negative, the cash percentage, the invested
    percentage and the weight of every listed position are 0.  When it is
    positive they are [cash / total_value * 100],
    [(total_value - cash) / total_value * 100] and, for each listed position,
    [value / total_value * 100]. *)
Theorem analysis_percentages_are_guarded
    (account : PaperAccount.t) (a : Analysis.t) :
  PaperTradingService.analyze_portfolio account = Analyzed a ->
  NoDup (Dict.keys (PaperAccount.positions account)) ->
  let total := Analysis.total_value a in
  (total <= 0 ->
     Analysis.cash_percent a = 0 /\
     Analysis.invested_percent a = 0 /\
     forall e, In e (Analysis.positions a) -> Metrics.weight (snd e) = 0) /\
  (0 < total ->
     Analysis.cash_percent a = PaperAccount.cash account / total * 100 /\
     Analysis.invested_percent a
       = (total - PaperAccount.cash account) / total * 100 /\
     forall e, In e (Analysis.positions a) ->
       Metrics.weight (snd e) = Metrics.value (snd e) / total * 100).
Proof.
  intros Hrun Hnd.
  destruct (analyze_portfolio_fields account a Hrun Hnd)
    as (_ & Hpos & _ & Hcp & _ & Hip & _).
  cbv zeta in *. set (tv := Analysis.total_value a) in *.
  rewrite Hcp, Hip, Hpos.
  assert (Hentry : forall e,
    In e (PaperTradingService.sorted_desc (entries_of account tv)) ->
    Metrics.weight (snd e)
    = if Qltb 0 tv then Metrics.value (snd e) / tv * 100 else 0).
  { intros e Hin. apply (Permutation_in _ (sorted_desc_perm _)) in Hin.
    unfold entries_of in Hin. apply in_map_iff in Hin.
    destruct Hin as (kv & <- & _). reflexivity. }
  split.
  - intro Hnonpos.
    assert (Hb : Qltb 0 tv = false) by now apply Qltb_ge.
    rewrite Hb. repeat split; try reflexivity.
    intros e Hin. rewrite (Hentry e Hin), Hb. reflexivity.
  - intro Hpositive.
    assert (Hb : Qltb 0 tv = true) by now apply Qltb_lt.
    rewrite Hb. repeat split; try reflexivity.
    intros e Hin. rewrite (Hentry e Hin), Hb. reflexivity.
Qed.

Lemma analysis_percentages_are_guarded_witness :
  let total := Analysis.total_value Sample.portfolio_analysis in
  (total <= 0 ->
     Analysis.cash_percent Sample.portfolio_analysis = 0 /\
     Analysis.invested_percent Sample.portfolio_analysis = 0 /\
     forall e, In e (Analysis.positions Sample.portfolio_analysis) ->
               Metrics.weight (snd e) = 0) /\
  (0 < total ->
     Analysis.cash_percent Sample.portfolio_analysis
       = PaperAccount.cash Sample.portfolio / total * 100 /\
     Analysis.invested_percent Sample.portfolio_analysis
       = (total - PaperAccount.cash Sample.portfolio) / total * 100 /\
     forall e, In e (Analysis.positions Sample.portfolio_analysis) ->
       Metrics.weight (snd e) = Metrics.value (snd e) / total * 100).
Proof.
  apply (analysis_percentages_are_guarded Sample.portfolio
           Sample.portfolio_analysis).
  - vm_compute. reflexivity.
  - constructor.
    + intros [H | []]. discriminate H.
    + constructor; [intros [] | constructor].
Defined.

Lemma set_weight_monotone (total : Q) (m m' : Metrics.t) :
  Metrics.value m' <= Metrics.value m ->
  Metrics.weight (PaperTradingService.set_weight total m')
  <= Metrics.weight (PaperTradingService.set_weight total m).
Proof.
  intro Hle. unfold PaperTradingService.set_weight. simpl.
  destruct (Qltb 0 total) eqn:Hb; [|apply Qle_refl].
  apply Qltb_lt in Hb.
  apply Qmult_le_compat_r; [|discriminate].
  unfold Qdiv. apply Qmult_le_compat_r; [exact Hle|].
  apply Qlt_le_weak, Qinv_lt_0_compat, Hb.
Qed.

(** X14. The [most_concentrated] entry of an analysis names a position of
    largest value: it is the first of the listed positions, no listed
    position has a larger value, and none has a larger weight. *)
Theorem most_concentrated_is_largest
    (account : PaperAccount.t) (a : Analysis.t) :
  PaperTradingService.analyze_portfolio account = Analyzed a ->
  NoDup (Dict.keys (PaperAccount.positions account)) ->
  exists symbol m rest,
    Analysis.positions a = (symbol, m) :: rest /\
    Analysis.most_concentrated a = Some (symbol, Metrics.weight m) /\
    forall e, In e (Analysis.positions a) ->
      Metrics.value (snd e) <= Metrics.value m /\
      Metrics.weight (snd e) <= Metrics.weight m.
Proof.
  intros Hrun Hnd.
  destruct (analyze_portfolio_fields account a Hrun Hnd)
    as (_ & Hpos & _ & _ & _ & _ & _ & Hmost & _).
  cbv zeta in Hpos.
  pose proof (sorted_desc_sorted
                (entries_of account (Analysis.total_value a))) as Hsorted.
  pose proof (sorted_desc_perm
                (entries_of account (Analysis.total_value a))) as Hperm.
  rewrite <- Hpos in Hsorted, Hperm.
  destruct (Analysis.positions a) as [|[symbol m] rest] eqn:Hlist.
  - apply Permutation_nil in Hperm. unfold entries_of in Hperm.
    apply map_eq_nil in Hperm.
    unfold PaperTradingService.analyze_portfolio in Hrun.
    rewrite Hperm in Hrun. discriminate.
  - exists symbol, m, rest. split; [reflexivity|]. split; [exact Hmost|].
    assert (Hvalue : forall e, In e ((symbol, m) :: rest) ->
                               Metrics.value (snd e) <= Metrics.value m).
    { intros e [<- | Hin]; [apply Qle_refl|].
      apply StronglySorted_inv in Hsorted. destruct Hsorted as [_ Hall].
      rewrite Forall_forall in Hall. exact (Hall e Hin). }
    assert (Hshape : forall e, In e ((symbol, m) :: rest) ->
              exists m0, snd e = PaperTradingService.set_weight
                                   (Analysis.total_value a) m0 /\
                         Metrics.value m0 = Metrics.value (snd e)).
    { intros e Hin. apply (Permutation_in _ Hperm) in Hin.
      unfold entries_of in Hin. apply in_map_iff in Hin.
      destruct Hin as (kv & <- & _). eexists. split; reflexivity. }
    intros e Hin. split; [exact (Hvalue e Hin)|].
    destruct (Hshape e Hin) as (m0 & He & Hv0).
    destruct (Hshape (symbol, m) (or_introl eq_refl)) as (m1 & Hm1 & Hv1).
    simpl in Hm1, Hv1. rewrite He, Hm1.
    apply set_weight_monotone. rewrite Hv0, Hv1. exact (Hvalue e Hin).
Qed.

Lemma most_concentrated_is_largest_witness :
  exists symbol m rest,
    Analysis.positions Sample.portfolio_analysis = (symbol, m) :: rest /\
    Analysis.most_concentrated Sample.portfolio_analysis
      = Some (symbol, Metrics.weight m) /\
    forall e, In e (Analysis.positions Sample.portfolio_analysis) ->
      Metrics.value (snd e) <= Metrics.value m /\
      Metrics.weight (snd e) <= Metrics.weight m.
Proof.
  apply (most_concentrated_is_largest Sample.portfolio
           Sample.portfolio_analysis).
  - vm_compute. reflexivity.
  - constructor.
    + intros [H | []]. discriminate H.
    + constructor; [intros [] | constructor].
Defined.

(** ** The daily P&L statistics *)

Lemma max_of_spec (xs : list Q) (x : Q) :
  In (PaperTradingService.max_of x xs) (x :: xs) /\
  forall v, In v (x :: xs) -> v <= PaperTradingService.max_of x xs.
Proof.
  unfold PaperTradingService.max_of. revert x.
  induction xs as [|y xs IH]; intro x; simpl.
  - split; [left; reflexivity|]. intros v [<- | []]. apply Qle_refl.
  - destruct (Qltb x y) eqn:E.
    + destruct (IH y) as [Hin Hmax]. split.
      * right. exact Hin.
      * intros v [<- | Hv]; [|exact (Hmax v Hv)].
        apply Qltb_lt in E. apply Qle_trans with y.
        -- now apply Qlt_le_weak.
        -- apply Hmax. left. reflexivity.
    + destruct (IH x) as [Hin Hmax]. split.
      * destruct Hin as [Hin | Hin]; [left; exact Hin | right; right; exact Hin].
      * intros v [<- | [<- | Hv]].
        -- apply Hmax. left. reflexivity.
        -- apply Qltb_ge in E. apply Qle_trans with x; [exact E|].
           apply Hmax. left. reflexivity.
        -- apply Hmax. right. exact Hv.
Qed.

Lemma min_of_spec (xs : list Q) (x : Q) :
  In (PaperTradingService.min_of x xs) (x :: xs) /\
  forall v, In v (x :: xs) -> PaperTradingService.min_of x xs <= v.
Proof.
  unfold PaperTradingService.min_of. revert x.
  induction xs as [|y xs IH]; intro x; simpl.
  - split; [left; reflexivity|]. intros v [<- | []]. apply Qle_refl.
  - destruct (Qltb y x) eqn:E.
    + destruct (IH y) as [Hin Hmin]. split.
      * right. exact Hin.
      * intros v [<- | Hv]; [|exact (Hmin v Hv)].
        apply Qltb_lt in E. apply Qle_trans with y.
        -- apply Hmin. left. reflexivity.
        -- now apply Qlt_le_weak.
    + destruct (IH x) as [Hin Hmin]. split.
      * destruct Hin as [Hin | Hin]; [left; exact Hin | right; right; exact Hin].
      * intros v [<- | [<- | Hv]].
        -- apply Hmin. left. reflexivity.
        -- apply Qltb_ge in E. apply Qle_trans with x; [|exact E].
           apply Hmin. left. reflexivity.
        -- apply Hmin. right. exact Hv.
Qed.

(** X15. The daily P&L entry of an analysis is present exactly when the
    account has recorded a day.  Its [best] and [worst] are recorded values,
    no recorded value is above [best] or below [worst], and its [avg] is the
    sum of the recorded values, taken in their order, over their number. *)
Theorem daily_stats_bound_the_days
    (account : PaperAccount.t) (a : Analysis.t) :
  PaperTradingService.analyze_portfolio account = Analyzed a ->
  let days := Dict.values (PaperAccount.daily_pl account) in
  match Analysis.daily_pl a with
  | None => days = []
  | Some stats =>
    days <> [] /\
    In (DailyStats.best stats) days /\
    In (DailyStats.worst stats) days /\
    (forall v, In v days ->
       DailyStats.worst stats <= v /\ v <= DailyStats.best stats) /\
    DailyStats.avg stats
      = PaperTradingService.sum days / inject_Z (Z.of_nat (length days))
  end.
Proof.
  intro Hrun. unfold PaperTradingService.analyze_portfolio in Hrun.
  destruct (Dict.is_empty (PaperAccount.positions account));
    [discriminate|].
  destruct (fold_left PaperTradingService.accumulate
              (PaperAccount.positions account)
              (PaperAccount.cash account, 0, Dict.empty))
    as [[tv ti] entries].
  injection Hrun as <-. cbv zeta. cbn [Analysis.daily_pl].
  destruct (Dict.values (PaperAccount.daily_pl account)) as [|v vs];
    [reflexivity|].
  cbn [DailyStats.best DailyStats.worst DailyStats.avg].
  destruct (max_of_spec vs v) as [Hbest_in Hbest].
  destruct (min_of_spec vs v) as [Hworst_in Hworst].
  split; [discriminate|]. split; [exact Hbest_in|].
  split; [exact Hworst_in|].
  split; [intros x Hx; split; [apply Hworst | apply Hbest]; exact Hx|].
  reflexivity.
Qed.

Lemma daily_stats_bound_the_days_witness :
  let days := Dict.values (PaperAccount.daily_pl Sample.traded) in
  match Analysis.daily_pl Sample.traded_analysis with
  | None => days = []
  | Some stats =>
    days <> [] /\
    In (DailyStats.best stats) days /\
    In (DailyStats.worst stats) days /\
    (forall v, In v days ->
       DailyStats.worst stats <= v /\ v <= DailyStats.best stats) /\
    DailyStats.avg stats
      = PaperTradingService.sum days / inject_Z (Z.of_nat (length days))
  end.
Proof.
  apply (daily_stats_bound_the_days Sample.traded Sample.traded_analysis).
  vm_compute. reflexivity.
Defined.

(** ** Refreshing, then analysing *)






(** ** The trading history *)





(** Of three trades stamped 100000, 300000 and 200000 seconds, the history
    of the last two days as seen at 350000 seconds keeps trade-0003 and
    trade-0002, the later one first. *)
Example scenario_history :
  map Trade.trade_id
      (PaperTradingService.get_trading_history 350000000000%Z
                                               Sample.three_trades 2)
  = ["trade-0002"; "trade-0003"].
Proof. reflexivity. Qed.

(** ** The [submit_order] tool *)

Lemma upper_ascii_idempotent (c : ascii) :
  upper_ascii (upper_ascii c) = upper_ascii c.
Proof. destruct c as [[] [] [] [] [] [] [] []]; reflexivity. Qed.

Lemma upper_idempotent (s : string) : upper (upper s) = upper s.
Proof.
  induction s as [|c s IH]; simpl; [reflexivity|].
  now rewrite upper_ascii_idempotent, IH.
Qed.

(** X18. The tool does not tell upper case from lower case in the symbol,
    the action and the order type: it answers and acts on the arguments as
    given exactly as on their upper-case forms. *)
Theorem tool_ignores_letter_case
    (validate_fields : list (string * json) -> outcome PaperAccount.t)
    (get_quote : string -> option Q) (new_order_id : string)
    (order_now : datetime) (f : file) (env : Env)
    (symbol action : string) (quantity : Q) (order_type : string)
    (limit_price : option Q) :
  Trading.submit_order validate_fields get_quote new_order_id order_now
    f env symbol action quantity order_type limit_price
  = Trading.submit_order validate_fields get_quote new_order_id order_now
      f env (upper symbol) (upper action) quantity (upper order_type)
      limit_price.
Proof.
  unfold Trading.submit_order. now rewrite !upper_idempotent.
Qed.

(** How a call of the service's [submit_order] ends, and what it saved. *)
Lemma submit_order_outcomes
    (env : Env) (o : Order.t) (account : PaperAccount.t) (price : Q) :
  let run := PaperTradingService.submit_order env o account price in
  match result run with
  | Raised _ => saved run = []
  | Returned r =>
    if SubmitResult.success r
    then saved run = [account_after run] /\
         accepted (Answer (SubmitResult.message r)) = true
    else saved run = [] /\
         accepted (Answer (SubmitResult.message r)) = false
  end.
Proof.
  cbv zeta. unfold PaperTradingService.submit_order.
  destruct (Order.order_type o); simpl; try (split; reflexivity).
  destruct (Order.action o); submit_cases; try reflexivity;
    split; reflexivity.
Qed.

(** X19. The tool hands the account to [save_account] only for an order it
    reports as accepted (bought, sold, sold short, or submitted): then the
    accounts saved are those [load_account] saved (the new account, when
    there was no snapshot) followed by exactly one, the account after the
    order.  For every other answer (a validation error, no price, not
    enough funds or shares, an exception such as the division by zero)
    nothing is saved beyond what [load_account] saved. *)
Theorem tool_saves_only_accepted_orders
    (validate_fields : list (string * json) -> outcome PaperAccount.t)
    (get_quote : string -> option Q) (new_order_id : string)
    (order_now : datetime) (f : file) (env : Env)
    (symbol action : string) (quantity : Q) (order_type : string)
    (limit_price : option Q) :
  let run :=
    Trading.submit_order validate_fields get_quote new_order_id order_now
      f env symbol action quantity order_type limit_price in
  let written := snd (PaperTradingService.load_account validate_fields f) in
  if accepted (fst run)
  then exists final, accounts_saved (snd run) = (written ++ [final])%list
  else accounts_saved (snd run) = [] \/ accounts_saved (snd run) = written.
Proof.
  cbv zeta. unfold Trading.submit_order.
  assert (Hsaves : forall l, accounts_saved (Trading.saves l) = l).
  { induction l as [|x l IH]; simpl; [reflexivity|]. now rewrite IH. }
  assert (Happ : forall t1 t2,
            accounts_saved (t1 ++ t2) = (accounts_saved t1
                                         ++ accounts_saved t2)%list)
    by (intros; unfold accounts_saved; apply flat_map_app).
  destruct (OrderAction_of_name (upper action)) as [act|];
    [|left; reflexivity].
  destruct (OrderType_of_name (upper order_type)) as [ty|];
    [|left; reflexivity].
  assert (Hrest :
    let run :=
      if Qle_bool quantity 0 then (QuantityNotPositive, [])
      else
        match PaperTradingService.load_account validate_fields f with
        | (Raised e, written) =>
          (ErrorSubmitting e, LoadAccount :: Trading.saves written)
        | (Returned account, written) =>
          match get_quote (upper symbol) with
          | None =>
            (NoCurrentPrice (upper symbol),
             ((LoadAccount :: Trading.saves written)
              ++ [GetQuote (upper symbol)])%list)
          | Some current_price =>
            match PaperTradingService.create_order new_order_id order_now
                    (upper symbol) act quantity (OrderType_value ty)
                    limit_price None (Some current_price) with
            | Raised e =>
              (ErrorSubmitting e,
               ((LoadAccount :: Trading.saves written)
                ++ [GetQuote (upper symbol)])%list)
            | Returned order =>
              match result (PaperTradingService.submit_order env order
                              account current_price) with
              | Raised e =>
                (ErrorSubmitting e,
                 ((((LoadAccount :: Trading.saves written)
                    ++ [GetQuote (upper symbol)])
                   ++ [CreateOrder order])
                  ++ Trading.saves
                       (saved (PaperTradingService.submit_order env order
                                 account current_price)))%list)
              | Returned r =>
                (Answer (SubmitResult.message r),
                 ((((LoadAccount :: Trading.saves written)
                    ++ [GetQuote (upper symbol)])
                   ++ [CreateOrder order])
                  ++ Trading.saves
                       (saved (PaperTradingService.submit_order env order
                                 account current_price)))%list)
              end
            end
          end
        end in
    if accepted (fst run)
    then exists final,
           accounts_saved (snd run)
           = (snd (PaperTradingService.load_account validate_fields f)
              ++ [final])%list
    else accounts_saved (snd run) = [] \/
         accounts_saved (snd run)
         = snd (PaperTradingService.load_account validate_fields f)).
  { cbv zeta. destruct (Qle_bool quantity 0); [left; reflexivity|].
    destruct (PaperTradingService.load_account validate_fields f)
      as [[account|e] written]; cbn [snd].
    2:{ cbn [fst snd accepted]. right.
        change (accounts_saved (LoadAccount :: Trading.saves written))
          with (accounts_saved (Trading.saves written)).
        apply Hsaves. }
    assert (Hload :
      accounts_saved ((LoadAccount :: Trading.saves written)
                      ++ [GetQuote (upper symbol)]) = written).
    { rewrite Happ.
      change (accounts_saved (LoadAccount :: Trading.saves written))
        with (accounts_saved (Trading.saves written)).
      rewrite Hsaves. apply app_nil_r. }
    destruct (get_quote (upper symbol)) as [current_price|].
    2:{ cbn [fst snd accepted]. right. exact Hload. }
    destruct (PaperTradingService.create_order new_order_id order_now
                (upper symbol) act quantity (OrderType_value ty)
                limit_price None (Some current_price)) as [order|e].
    2:{ cbn [fst snd accepted]. right. exact Hload. }
    assert (Hall : forall l,
      accounts_saved
        ((((LoadAccount :: Trading.saves written)
           ++ [GetQuote (upper symbol)])
          ++ [CreateOrder order]) ++ Trading.saves l)
      = (written ++ l)%list).
    { intro l. rewrite Happ, Happ, Hload, Hsaves. simpl.
      now rewrite app_nil_r. }
    pose proof (submit_order_outcomes env order account current_price)
      as Hout. cbv zeta in Hout.
    destruct (result (PaperTradingService.submit_order env order account
                        current_price)) as [r|e].
    - cbn [fst snd]. rewrite Hall.
      destruct (SubmitResult.success r); destruct Hout as [Hs Ha];
        rewrite Ha, Hs.
      + eexists. reflexivity.
      + right. apply app_nil_r.
    - cbn [fst snd accepted]. rewrite Hall, Hout. right. apply app_nil_r. }
  destruct ty, limit_price; try exact Hrest; left; reflexivity.
Qed.
